(** * plugin-shapes: a shallow embedding of the shape layer types and tools

    The development follows the TypeScript sources file by file:
    [Js] holds the fragment of the JavaScript runtime the plugin relies on
    (numbers, primitive values, coercions, [Number] on strings), [Geometry]
    the vertex generators of polygon.ts and star.ts, [Layers] the property
    schemas, [createDefault] and the canvas renderers of shared.ts, rect.ts,
    ellipse.ts, line.ts, polygon.ts and star.ts, and [Tools] the five tool
    handlers of shape-tools.ts. *)

From Stdlib Require Import ZArith QArith Qcanon Reals Lra List String Ascii Bool
  DecimalString.
From stdpp Require Import gmap strings list fin_maps.

Local Open Scope Z_scope.

(** ** The JavaScript fragment *)

Module Js.

(** A JavaScript number.  A finite double is represented by the rational it
    denotes; rounding, overflow and the sign of zero are not modelled. *)
Inductive number : Type :=
  | NaN
  | Inf (negative : bool)
  | Fin (q : Qc).

(** Canonical rationals are always built from a reduced fraction, so that two
    equal numbers evaluate to the same term. *)
Definition mkQc (q : Q) : Qc := Q2Qc (Qred q).
Definition qc_add (x y : Qc) : Qc := mkQc (this x + this y).
Definition qc_opp (x : Qc) : Qc := mkQc (- this x).
Definition qc_div (x y : Qc) : Qc := mkQc (this x / this y).

Definition num_of_Z (z : Z) : number := Fin (mkQc (inject_Z z)).
Definition num_of_Q (q : Q) : number := Fin (mkQc q).

Definition Qc_ltb (a b : Qc) : bool := negb (Qle_bool (this b) (this a)).
Definition Qc_eqb (a b : Qc) : bool := Qeq_bool (this a) (this b).

Definition isNaN (n : number) : bool :=
  match n with NaN => true | _ => false end.

(** [a < b]; every comparison with NaN is false. *)
Definition num_ltb (a b : number) : bool :=
  match a, b with
  | NaN, _ | _, NaN => false
  | Inf na, Inf nb => na && negb nb
  | Inf na, Fin _ => na
  | Fin _, Inf nb => negb nb
  | Fin x, Fin y => Qc_ltb x y
  end.

(** [a > b] *)
Definition num_gtb (a b : number) : bool := num_ltb b a.


Definition num_neg (a : number) : number :=
  match a with
  | NaN => NaN
  | Inf n => Inf (negb n)
  | Fin x => Fin (qc_opp x)
  end.

Definition num_add (a b : number) : number :=
  match a, b with
  | NaN, _ | _, NaN => NaN
  | Inf na, Inf nb => if Bool.eqb na nb then Inf na else NaN
  | Inf na, Fin _ => Inf na
  | Fin _, Inf nb => Inf nb
  | Fin x, Fin y => Fin (qc_add x y)
  end.

Definition num_sub (a b : number) : number := num_add a (num_neg b).

Definition Qc_zero : Qc := mkQc 0.
Definition Qc_negative (x : Qc) : bool := Qc_ltb x Qc_zero.

Definition num_div (a b : number) : number :=
  match a, b with
  | NaN, _ | _, NaN => NaN
  | Inf _, Inf _ => NaN
  | Inf na, Fin y => Inf (xorb na (Qc_negative y))
  | Fin _, Inf _ => Fin Qc_zero
  | Fin x, Fin y =>
      if Qc_eqb y Qc_zero then
        if Qc_eqb x Qc_zero then NaN else Inf (Qc_negative x)
      else Fin (qc_div x y)
  end.

(** [Math.min] on already coerced arguments: NaN as soon as one argument is
    NaN, [Infinity] for no argument. *)
Definition num_min2 (a b : number) : number :=
  match a, b with
  | NaN, _ | _, NaN => NaN
  | _, _ => if num_ltb b a then b else a
  end.

Definition Math_min (args : list number) : number :=
  fold_left num_min2 args (Inf false).

(** *** [Number] applied to a string (StringToNumber) *)

Definition is_space (c : ascii) : bool :=
  let n := nat_of_ascii c in
  ((9 <=? n) && (n <=? 13))%nat || (n =? 32)%nat.

Fixpoint drop_space (cs : list ascii) : list ascii :=
  match cs with
  | c :: r => if is_space c then drop_space r else cs
  | [] => []
  end.

Definition trim (cs : list ascii) : list ascii :=
  rev (drop_space (rev (drop_space cs))).

(** The value of a digit in the given radix, if it is one. *)
Definition digit_val (radix : Z) (c : ascii) : option Z :=
  let n := Z.of_nat (nat_of_ascii c) in
  let v :=
    if (48 <=? n) && (n <=? 57) then Some (n - 48)
    else if (97 <=? n) && (n <=? 102) then Some (n - 87)
    else if (65 <=? n) && (n <=? 70) then Some (n - 55)
    else None in
  match v with
  | Some d => if d <? radix then Some d else None
  | None => None
  end.

(** The longest prefix of digits, as digit values, and the rest. *)
Fixpoint span_digits (radix : Z) (cs : list ascii) : list Z * list ascii :=
  match cs with
  | c :: r =>
      match digit_val radix c with
      | Some d => let '(ds, rest) := span_digits radix r in (d :: ds, rest)
      | None => ([], cs)
      end
  | [] => ([], [])
  end.

Definition digits_value (radix : Z) (ds : list Z) : Z :=
  fold_left (fun acc d => acc * radix + d) ds 0.

(** [m * 10^e] as a number. *)
Definition scale10 (m e : Z) : number :=
  if 0 <=? e then num_of_Z (m * 10 ^ e)
  else num_of_Q (Qmake m (Z.to_pos (10 ^ (- e)))).

Definition parse_radix (radix : Z) (cs : list ascii) : number :=
  match span_digits radix cs with
  | (d :: ds, []) => num_of_Z (digits_value radix (d :: ds))
  | _ => NaN
  end.

Definition parse_exponent (cs : list ascii) : option (Z * list ascii) :=
  match cs with
  | c :: r =>
      if (Ascii.eqb c "e" || Ascii.eqb c "E")%char then
        let '(neg, r1) :=
          match r with
          | s :: r' =>
              if Ascii.eqb s "-"%char then (true, r')
              else if Ascii.eqb s "+"%char then (false, r')
              else (false, r)
          | [] => (false, r)
          end in
        match span_digits 10 r1 with
        | (d :: ds, rest) =>
            let e := digits_value 10 (d :: ds) in
            Some (if neg then - e else e, rest)
        | ([], _) => None
        end
      else Some (0, cs)
  | [] => Some (0, [])
  end.

Definition parse_decimal (cs : list ascii) : number :=
  let '(neg, cs1) :=
    match cs with
    | s :: r =>
        if Ascii.eqb s "-"%char then (true, r)
        else if Ascii.eqb s "+"%char then (false, r)
        else (false, cs)
    | [] => (false, cs)
    end in
  if String.eqb (string_of_list_ascii cs1) "Infinity" then Inf neg
  else
    let '(ip, r1) := span_digits 10 cs1 in
    let '(fp, r2) :=
      match r1 with
      | d :: r => if Ascii.eqb d "."%char then span_digits 10 r else ([], r1)
      | [] => ([], r1)
      end in
    match ip ++ fp with
    | [] => NaN
    | ds =>
        match parse_exponent r2 with
        | Some (e, []) =>
            let m := digits_value 10 ds in
            scale10 (if neg then - m else m) (e - Z.of_nat (List.length fp))
        | _ => NaN
        end
    end.

Definition StringToNumber (s : string) : number :=
  match trim (list_ascii_of_string s) with
  | [] => num_of_Z 0
  | c0 :: c1 :: r =>
      if Ascii.eqb c0 "0"%char && (Ascii.eqb c1 "x" || Ascii.eqb c1 "X")%char
      then parse_radix 16 r
      else if Ascii.eqb c0 "0"%char && (Ascii.eqb c1 "o" || Ascii.eqb c1 "O")%char
      then parse_radix 8 r
      else if Ascii.eqb c0 "0"%char && (Ascii.eqb c1 "b" || Ascii.eqb c1 "B")%char
      then parse_radix 2 r
      else parse_decimal (c0 :: c1 :: r)
  | cs => parse_decimal cs
  end.

(** *** Primitive values *)

Inductive value : Type :=
  | JUndefined
  | JNull
  | JBool (b : bool)
  | JNum (n : number)
  | JStr (s : string).

(** [v !== undefined] *)
Definition is_defined (v : value) : bool :=
  match v with JUndefined => false | _ => true end.

(** [a ?? b] *)
Definition nullish (a b : value) : value :=
  match a with JUndefined | JNull => b | _ => a end.

(** ToBoolean *)
Definition truthy (v : value) : bool :=
  match v with
  | JUndefined | JNull => false
  | JBool b => b
  | JNum NaN => false
  | JNum (Inf _) => true
  | JNum (Fin q) => negb (Qc_eqb q Qc_zero)
  | JStr s => negb (String.eqb s "")
  end.

(** ToNumber *)
Definition ToNumber (v : value) : number :=
  match v with
  | JUndefined => NaN
  | JNull => num_of_Z 0
  | JBool b => num_of_Z (if b then 1 else 0)
  | JNum n => n
  | JStr s => StringToNumber s
  end.

(** [String.prototype.split] with a one-character separator: the pieces
    between the occurrences, so one more piece than there are separators. *)
Fixpoint split_on (sep : ascii) (s : string) : list string :=
  match s with
  | EmptyString => [EmptyString]
  | String c r =>
      if Ascii.eqb c sep then EmptyString :: split_on sep r
      else match split_on sep r with
           | p :: ps => String c p :: ps
           | [] => [String c EmptyString]
           end
  end.

End Js.

Import Js.

(** ** Vertex generators (polygon.ts, star.ts)

    Coordinates and angles are real numbers here: [Math.cos], [Math.sin] and
    [Math.PI] are read as their mathematical counterparts.  The vertex count
    is an integer, as the loops count with an integer index. *)

Module Geometry.

Local Open Scope R_scope.

Record Point : Type := { x : R; y : R }.

(** [for (let i = 0; i < bound; i++) acc.push(f(i))], started at index [i];
    [fuel] bounds the number of iterations. *)
Fixpoint for_push {A : Type} (f : Z -> A) (bound : Z) (fuel : nat) (i : Z)
    (acc : list A) : list A :=
  match fuel with
  | O => acc
  | S fuel' =>
      if (i <? bound)%Z then for_push f bound fuel' (i + 1)%Z (acc ++ [f i])
      else acc
  end.

Definition polygonPoints (cx cy radius : R) (sides : Z) (rotationDeg : R)
    : list Point :=
  let angleStep := (PI * 2) / IZR sides in
  let startAngle := (rotationDeg * PI) / 180 - PI / 2 in
  for_push
    (fun i =>
       let angle := startAngle + IZR i * angleStep in
       {| x := cx + radius * cos angle; y := cy + radius * sin angle |})
    sides (Z.to_nat sides) 0%Z [].

Definition starPoints (cx cy outerRadius innerRadiusRatio : R) (numPoints : Z)
    (rotationDeg : R) : list Point :=
  let innerRadius := outerRadius * innerRadiusRatio in
  let angleStep := PI / IZR numPoints in
  let startAngle := (rotationDeg * PI) / 180 - PI / 2 in
  for_push
    (fun i =>
       let angle := startAngle + IZR i * angleStep in
       let r := if (i mod 2 =? 0)%Z then outerRadius else innerRadius in
       {| x := cx + r * cos angle; y := cy + r * sin angle |})
    (numPoints * 2)%Z (Z.to_nat (numPoints * 2)) 0%Z [].




End Geometry.


(** ** Layer types (shared.ts, rect.ts, ellipse.ts, line.ts, polygon.ts, star.ts) *)

Module Layers.

Inductive PropertyType : Type := PColor | PBoolean | PNumber | PString | PSelect.

Record SelectOption : Type := { value_ : string; label_ : string }.

Record LayerPropertySchema : Type := {
  key : string;
  label : string;
  type : PropertyType;
  default : value;
  min : option number;
  max : option number;
  step : option number;
  group : string;
  options : list SelectOption;
}.

(** A property bag: the own properties of a plain object. *)
Abbreviation LayerProperties := (gmap string value).

(** [properties.k]: a missing key reads as [undefined]. *)
Definition prop (properties : LayerProperties) (k : string) : value :=
  match properties !! k with
  | Some v => v
  | None => JUndefined
  end.

Definition num (q : Q) : value := JNum (num_of_Q q).

Definition plain (k l : string) (t : PropertyType) (d : value) (g : string)
    : LayerPropertySchema :=
  {| key := k; label := l; type := t; default := d;
     min := None; max := None; step := None; group := g; options := [] |}.

Definition ranged (k l : string) (d lo hi st : Q) (g : string)
    : LayerPropertySchema :=
  {| key := k; label := l; type := PNumber; default := num d;
     min := Some (num_of_Q lo); max := Some (num_of_Q hi);
     step := Some (num_of_Q st); group := g; options := [] |}.

Definition COMMON_SHAPE_PROPERTIES : list LayerPropertySchema :=
  [ plain "fillColor" "Fill Color" PColor (JStr "#ffffff") "fill";
    plain "fillEnabled" "Fill Enabled" PBoolean (JBool true) "fill";
    plain "strokeColor" "Stroke Color" PColor (JStr "#000000") "stroke";
    ranged "strokeWidth" "Stroke Width" 0 0 100 0.5 "stroke";
    plain "strokeEnabled" "Stroke Enabled" PBoolean (JBool false) "stroke" ].

Definition RECT_PROPERTIES : list LayerPropertySchema :=
  COMMON_SHAPE_PROPERTIES
  ++ [ ranged "cornerRadius" "Corner Radius" 0 0 500 1 "shape" ].

Definition POLYGON_PROPERTIES : list LayerPropertySchema :=
  COMMON_SHAPE_PROPERTIES
  ++ [ ranged "sides" "Sides" 6 3 100 1 "shape";
       ranged "rotation" "Rotation" 0 0 360 1 "shape" ].

Definition STAR_PROPERTIES : list LayerPropertySchema :=
  COMMON_SHAPE_PROPERTIES
  ++ [ ranged "points" "Points" 5 3 50 1 "shape";
       ranged "innerRadius" "Inner Radius" 0.4 0.05 0.95 0.01 "shape";
       ranged "rotation" "Rotation" 0 0 360 1 "shape" ].

Definition LINE_PROPERTIES : list LayerPropertySchema :=
  [ plain "strokeColor" "Line Color" PColor (JStr "#ffffff") "stroke";
    ranged "strokeWidth" "Line Width" 2 0.5 100 0.5 "stroke";
    {| key := "lineCap"; label := "Line Cap"; type := PSelect;
       default := JStr "round"; min := None; max := None; step := None;
       group := "stroke";
       options := [ {| value_ := "butt"; label_ := "Butt" |};
                    {| value_ := "round"; label_ := "Round" |};
                    {| value_ := "square"; label_ := "Square" |} ] |};
    plain "dashPattern" "Dash Pattern" PString (JStr "") "stroke" ].

(** The body shared by the five [createDefault] methods:
    [for (const schema of PROPS) props[schema.key] = schema.default]. *)
Definition defaults_of (schemas : list LayerPropertySchema) : LayerProperties :=
  fold_left (fun props schema => <[key schema := default schema]> props)
            schemas ∅.

Record LayerTypeDefinition : Type := {
  typeId : string;
  displayName : string;
  icon : string;
  category : string;
  properties : list LayerPropertySchema;
  propertyEditorId : string;
  createDefault : LayerProperties;
}.

Definition rectLayerType : LayerTypeDefinition :=
  {| typeId := "shapes:rect"; displayName := "Rectangle"; icon := "square";
     category := "shape"; properties := RECT_PROPERTIES;
     propertyEditorId := "shapes:rect-editor";
     createDefault := defaults_of RECT_PROPERTIES |}.

Definition ellipseLayerType : LayerTypeDefinition :=
  {| typeId := "shapes:ellipse"; displayName := "Ellipse"; icon := "circle";
     category := "shape"; properties := COMMON_SHAPE_PROPERTIES;
     propertyEditorId := "shapes:ellipse-editor";
     createDefault := defaults_of COMMON_SHAPE_PROPERTIES |}.

Definition lineLayerType : LayerTypeDefinition :=
  {| typeId := "shapes:line"; displayName := "Line"; icon := "minus";
     category := "shape"; properties := LINE_PROPERTIES;
     propertyEditorId := "shapes:line-editor";
     createDefault := defaults_of LINE_PROPERTIES |}.

Definition polygonLayerType : LayerTypeDefinition :=
  {| typeId := "shapes:polygon"; displayName := "Polygon"; icon := "hexagon";
     category := "shape"; properties := POLYGON_PROPERTIES;
     propertyEditorId := "shapes:polygon-editor";
     createDefault := defaults_of POLYGON_PROPERTIES |}.

Definition starLayerType : LayerTypeDefinition :=
  {| typeId := "shapes:star"; displayName := "Star"; icon := "star";
     category := "shape"; properties := STAR_PROPERTIES;
     propertyEditorId := "shapes:star-editor";
     createDefault := defaults_of STAR_PROPERTIES |}.

(** The plugin's [layerTypes], in registration order. *)
Definition layerTypes : list LayerTypeDefinition :=
  [ rectLayerType; ellipseLayerType; lineLayerType; polygonLayerType;
    starLayerType ].

(** *** The drawing context

    A [CanvasRenderingContext2D] is observed through the calls and the
    assignments made on it, in order. *)
Inductive CanvasOp : Type :=
  | Save
  | Restore
  | BeginPath
  | ClosePath
  | MoveTo (x y : number)
  | LineTo (x y : number)
  | Rect (x y w h : number)
  | RoundRect (x y w h r : number)
  | Fill
  | Stroke
  | SetLineDash (segments : list number)
  | SetFillStyle (v : value)
  | SetStrokeStyle (v : value)
  | SetLineWidth (v : value)
  | SetLineCap (v : value).

Abbreviation Ctx := (list CanvasOp).

Record LayerBounds : Type := {
  x : number;
  y : number;
  width : number;
  height : number;
  rotation : number;
  scaleX : number;
  scaleY : number;
}.

(** A render either completes or throws; both carry the context as the
    calls made so far have left it. *)
Inductive completion : Type :=
  | Normal (ctx : Ctx)
  | Thrown (ctx : Ctx) (error : string).

Definition zero : number := num_of_Z 0.
Definition two : number := num_of_Z 2.

(** shared.ts *)
Definition applyShapeStyle (properties : LayerProperties) (ctx : Ctx) : Ctx :=
  let fillEnabled := nullish (prop properties "fillEnabled") (JBool true) in
  let strokeEnabled := nullish (prop properties "strokeEnabled") (JBool false) in
  let ctx :=
    if truthy fillEnabled then
      ctx ++ [ SetFillStyle (nullish (prop properties "fillColor") (JStr "#ffffff"));
               Fill ]
    else ctx in
  if truthy strokeEnabled then
    let strokeWidth := nullish (prop properties "strokeWidth") (JNum zero) in
    if num_gtb (ToNumber strokeWidth) zero then
      ctx ++ [ SetStrokeStyle (nullish (prop properties "strokeColor") (JStr "#000000"));
               SetLineWidth strokeWidth;
               Stroke ]
    else ctx
  else ctx.

(** rect.ts, [render] *)
Definition rect_render (properties : LayerProperties) (ctx : Ctx)
    (bounds : LayerBounds) : Ctx :=
  let cornerRadius := nullish (prop properties "cornerRadius") (JNum zero) in
  let ctx := ctx ++ [Save; BeginPath] in
  let ctx :=
    if num_gtb (ToNumber cornerRadius) zero then
      let r := Math_min [ ToNumber cornerRadius;
                          num_div (width bounds) two;
                          num_div (height bounds) two ] in
      ctx ++ [RoundRect (x bounds) (y bounds) (width bounds) (height bounds) r]
    else
      ctx ++ [Rect (x bounds) (y bounds) (width bounds) (height bounds)] in
  let ctx := applyShapeStyle properties ctx in
  ctx ++ [Restore].

(** The callback of [filter] in line.ts: [(n) => !isNaN(n) && n > 0]. *)
Definition dash_keep (n : number) : bool := negb (isNaN n) && num_gtb n zero.

(** [dashStr.split(",").map(Number).filter(...)] *)
Definition parse_dashes (dashStr : string) : list number :=
  List.filter dash_keep (List.map StringToNumber (split_on "," dashStr)).

(** line.ts, [render].  A truthy [dashPattern] that is not a string has no
    [split] method, and the call throws. *)
Definition line_render (properties : LayerProperties) (ctx : Ctx)
    (bounds : LayerBounds) : completion :=
  let color := nullish (prop properties "strokeColor") (JStr "#ffffff") in
  let width_ := nullish (prop properties "strokeWidth") (JNum two) in
  let cap := nullish (prop properties "lineCap") (JStr "round") in
  let dashStr := nullish (prop properties "dashPattern") (JStr "") in
  let ctx :=
    ctx ++ [ Save; BeginPath;
             MoveTo (x bounds) (y bounds);
             LineTo (num_add (x bounds) (width bounds))
                    (num_add (y bounds) (height bounds));
             SetStrokeStyle color; SetLineWidth width_; SetLineCap cap ] in
  if truthy dashStr then
    match dashStr with
    | JStr s =>
        let dashes := parse_dashes s in
        let ctx :=
          if (0 <? List.length dashes)%nat then ctx ++ [SetLineDash dashes]
          else ctx in
        Normal (ctx ++ [Stroke; Restore])
    | _ => Thrown ctx "TypeError: dashStr.split is not a function"
    end
  else Normal (ctx ++ [Stroke; Restore]).

(** The bounds of the renderer tests: (0, 0, 200, 200). *)
Definition BOUNDS : LayerBounds :=
  {| x := num_of_Z 0; y := num_of_Z 0; width := num_of_Z 200;
     height := num_of_Z 200; rotation := num_of_Z 0;
     scaleX := num_of_Z 1; scaleY := num_of_Z 1 |}.

(** The bounds (0, 0, 40, 100), unrotated and unscaled. *)
Definition bounds_40_100 : LayerBounds :=
  {| x := num_of_Z 0; y := num_of_Z 0; width := num_of_Z 40;
     height := num_of_Z 100; rotation := num_of_Z 0;
     scaleX := num_of_Z 1; scaleY := num_of_Z 1 |}.

(** The path-construction calls among the operations of a context. *)
Definition is_path_op (op : CanvasOp) : bool :=
  match op with
  | MoveTo _ _ | LineTo _ _ | Rect _ _ _ _ | RoundRect _ _ _ _ _ | ClosePath
  | BeginPath => true
  | _ => false
  end.




End Layers.

(** ** Tool handlers (shape-tools.ts) *)

Module Tools.

Import Layers(LayerTypeDefinition, typeId, displayName, createDefault, prop, num).

Record LayerTransform : Type := {
  x : value;
  y : value;
  width : value;
  height : value;
  rotation : value;
  scaleX : value;
  scaleY : value;
  anchorX : value;
  anchorY : value;
}.

Record DesignLayer : Type := {
  id : string;
  type : string;
  name : string;
  visible : bool;
  locked : bool;
  opacity : number;
  blendMode : string;
  transform : LayerTransform;
  properties : gmap string value;
}.

(** *** The host context

    The handlers see the host through [context.layers.get],
    [context.layers.add], [context.layers.updateProperties] and
    [context.emitChange].  The context keeps the layer stack that [get]
    reads and the mutating calls received so far, oldest first.  The stack
    behaves as an in-memory host does: [add] appends the layer and
    [updateProperties] overlays the updates on the layer with that id. *)
Inductive HostCall : Type :=
  | CallAdd (layer : DesignLayer)
  | CallUpdateProperties (layerId : value) (updates : gmap string value)
  | CallEmitChange (change : string).

Record McpToolContext : Type := {
  stack : list DesignLayer;
  calls : list HostCall;
}.

Definition layers_get (context : McpToolContext) (layerId : value)
    : option DesignLayer :=
  match layerId with
  | JStr s => List.find (fun l => String.eqb (id l) s) (stack context)
  | _ => None
  end.

Definition layers_add (context : McpToolContext) (layer : DesignLayer)
    : McpToolContext :=
  {| stack := stack context ++ [layer];
     calls := calls context ++ [CallAdd layer] |}.

Definition with_properties (l : DesignLayer) (props : gmap string value)
    : DesignLayer :=
  {| id := id l; type := type l; name := name l; visible := visible l;
     locked := locked l; opacity := opacity l; blendMode := blendMode l;
     transform := transform l; properties := props |}.

Definition layers_updateProperties (context : McpToolContext)
    (layerId : value) (updates : gmap string value) : McpToolContext :=
  {| stack :=
       match layerId with
       | JStr s =>
           List.map (fun l => if String.eqb (id l) s
                              then with_properties l (updates ∪ properties l)
                              else l)
                    (stack context)
       | _ => stack context
       end;
     calls := calls context ++ [CallUpdateProperties layerId updates] |}.

Definition emitChange (context : McpToolContext) (change : string)
    : McpToolContext :=
  {| stack := stack context;
     calls := calls context ++ [CallEmitChange change] |}.

(** What the handlers take from the runtime: the clock and the random draw,
    both already in base 36, and the printing of numbers. *)
Record Runtime : Type := {
  now36 : string;
  random36 : string;
  numberToString : number -> string;
}.

(** ToString on primitive values; also the property key a value denotes. *)
Definition ToString (rt : Runtime) (v : value) : string :=
  match v with
  | JUndefined => "undefined"
  | JNull => "null"
  | JBool true => "true"
  | JBool false => "false"
  | JNum n => numberToString rt n
  | JStr s => s
  end.

Record ContentItem : Type := { ctype : string; text : string }.

(** [isError] is [Some true] when the property is set, [None] when absent. *)
Record McpToolResult : Type := {
  content : list ContentItem;
  isError : option bool;
}.

Definition textResult (t : string) : McpToolResult :=
  {| content := [ {| ctype := "text"; text := t |} ]; isError := None |}.

Definition errorResult (t : string) : McpToolResult :=
  {| content := [ {| ctype := "text"; text := t |} ]; isError := Some true |}.

(** An asynchronous handler resolves with a result or rejects with the
    exception thrown in its body. *)
Inductive outcome : Type :=
  | Resolved (result : McpToolResult) (context : McpToolContext)
  | Rejected (error : string) (context : McpToolContext).

Definition generateLayerId (rt : Runtime) : string :=
  "layer-" ++ now36 rt ++ "-" ++ String.substring 2 6 (random36 rt).

(** The own properties of the [SHAPE_TYPES] object literal. *)
Definition SHAPE_TYPES : list (string * LayerTypeDefinition) :=
  [ ("rect", Layers.rectLayerType);
    ("ellipse", Layers.ellipseLayerType);
    ("polygon", Layers.polygonLayerType);
    ("star", Layers.starLayerType) ]%string.

(** The property names every plain object inherits from [Object.prototype]. *)
Definition Object_prototype_keys : list string :=
  [ "constructor"; "__proto__"; "__defineGetter__"; "__defineSetter__";
    "__lookupGetter__"; "__lookupSetter__"; "hasOwnProperty";
    "isPrototypeOf"; "propertyIsEnumerable"; "toLocaleString"; "toString";
    "valueOf" ]%string.

Fixpoint assoc {A : Type} (k : string) (l : list (string * A)) : option A :=
  match l with
  | (k', a) :: r => if String.eqb k' k then Some a else assoc k r
  | [] => None
  end.

Fixpoint mem_string (k : string) (l : list string) : bool :=
  match l with
  | k' :: r => String.eqb k' k || mem_string k r
  | [] => false
  end.

(** The result of the property read [SHAPE_TYPES[k]]: an own entry, a member
    inherited from the prototype (a function or the prototype object itself,
    truthy and without a [createDefault] method), or [undefined]. *)
Inductive member : Type :=
  | OwnShape (shapeDef : LayerTypeDefinition)
  | InheritedMember
  | NoMember.

Definition SHAPE_TYPES_get (k : string) : member :=
  match assoc k SHAPE_TYPES with
  | Some d => OwnShape d
  | None => if mem_string k Object_prototype_keys then InheritedMember
            else NoMember
  end.

(** [if (input.k !== undefined) properties.k = input.k] *)
Definition merge_key (input : gmap string value) (k : string)
    (props : gmap string value) : gmap string value :=
  if is_defined (prop input k) then <[k := prop input k]> props else props.

(** The merge of [add_shape]: a supplied [strokeWidth] also sets
    [strokeEnabled]. *)
Definition addShape_merge (input defaults : gmap string value)
    : gmap string value :=
  let properties := defaults in
  let properties := merge_key input "fillColor" properties in
  let properties := merge_key input "strokeColor" properties in
  let properties :=
    if is_defined (prop input "strokeWidth") then
      <["strokeEnabled" :=
          JBool (num_gtb (ToNumber (prop input "strokeWidth")) Layers.zero)]>
        (<["strokeWidth" := prop input "strokeWidth"]> properties)
    else properties in
  let properties := merge_key input "sides" properties in
  let properties := merge_key input "points" properties in
  merge_key input "cornerRadius" properties.

Definition addShape_handler (rt : Runtime) (input : gmap string value)
    (context : McpToolContext) : outcome :=
  let shapeKey := prop input "shape" in
  match SHAPE_TYPES_get (ToString rt shapeKey) with
  | NoMember =>
      Resolved (errorResult ("Unknown shape type '" ++ ToString rt shapeKey ++ "'."))
               context
  | InheritedMember =>
      Rejected "TypeError: shapeDef.createDefault is not a function" context
  | OwnShape shapeDef =>
      let defaults := createDefault shapeDef in
      let properties := addShape_merge input defaults in
      let id_ := generateLayerId rt in
      let transform_ :=
        {| x := nullish (prop input "x") (num 100);
           y := nullish (prop input "y") (num 100);
           width := nullish (prop input "width") (num 200);
           height := nullish (prop input "height") (num 200);
           rotation := num 0; scaleX := num 1; scaleY := num 1;
           anchorX := num 0.5; anchorY := num 0.5 |} in
      let layer :=
        {| id := id_; type := typeId shapeDef; name := displayName shapeDef;
           visible := true; locked := false; opacity := num_of_Z 1;
           blendMode := "normal"; transform := transform_;
           properties := properties |} in
      let context := layers_add context layer in
      let context := emitChange context "layer-added" in
      Resolved (textResult ("Added " ++ displayName shapeDef ++ " layer '"
                            ++ id_ ++ "'."))
               context
  end.

Definition style_keys : list string :=
  [ "fillColor"; "fillEnabled"; "strokeColor"; "strokeWidth";
    "strokeEnabled" ]%string.

Definition setShapeStyle_handler (rt : Runtime) (input : gmap string value)
    (context : McpToolContext) : outcome :=
  let layerId := prop input "layerId" in
  match layers_get context layerId with
  | None =>
      Resolved (errorResult ("Layer '" ++ ToString rt layerId ++ "' not found."))
               context
  | Some layer =>
      if negb (String.prefix "shapes:" (type layer)) then
        Resolved (errorResult ("Layer '" ++ ToString rt layerId
                               ++ "' is not a shape layer."))
                 context
      else
        let updates :=
          fold_left (fun updates k => merge_key input k updates) style_keys ∅ in
        if (List.length (map_to_list updates) =? 0)%nat then
          Resolved (errorResult "No style properties provided.") context
        else
          let context := layers_updateProperties context layerId updates in
          let context := emitChange context "layer-updated" in
          Resolved (textResult ("Updated style on shape layer '"
                                ++ ToString rt layerId ++ "'."))
                   context
  end.

Definition setPolygon_handler (rt : Runtime) (input : gmap string value)
    (context : McpToolContext) : outcome :=
  let layerId := prop input "layerId" in
  match layers_get context layerId with
  | None =>
      Resolved (errorResult ("Layer '" ++ ToString rt layerId ++ "' not found."))
               context
  | Some layer =>
      if negb (String.eqb (type layer) "shapes:polygon") then
        Resolved (errorResult ("Layer '" ++ ToString rt layerId
                               ++ "' is not a polygon layer."))
                 context
      else
        let updates := merge_key input "sides" ∅ in
        let updates := merge_key input "rotation" updates in
        let context := layers_updateProperties context layerId updates in
        let context := emitChange context "layer-updated" in
        Resolved (textResult ("Updated polygon layer '"
                              ++ ToString rt layerId ++ "'."))
                 context
  end.

Definition addLine_handler (rt : Runtime) (input : gmap string value)
    (context : McpToolContext) : outcome :=
  let x1 := nullish (prop input "x1") (num 0) in
  let y1 := nullish (prop input "y1") (num 0) in
  let x2 := nullish (prop input "x2") (num 200) in
  let y2 := nullish (prop input "y2") (num 200) in
  let defaults := createDefault Layers.lineLayerType in
  let properties := defaults in
  let properties := merge_key input "strokeColor" properties in
  let properties := merge_key input "strokeWidth" properties in
  let id_ := generateLayerId rt in
  let layer :=
    {| id := id_; type := "shapes:line"; name := "Line";
       visible := true; locked := false; opacity := num_of_Z 1;
       blendMode := "normal";
       transform :=
         {| x := x1; y := y1;
            width := JNum (num_sub (ToNumber x2) (ToNumber x1));
            height := JNum (num_sub (ToNumber y2) (ToNumber y1));
            rotation := num 0; scaleX := num 1; scaleY := num 1;
            anchorX := num 0; anchorY := num 0 |};
       properties := properties |} in
  let context := layers_add context layer in
  let context := emitChange context "layer-added" in
  Resolved (textResult ("Added line layer '" ++ id_ ++ "' from ("
                        ++ ToString rt x1 ++ "," ++ ToString rt y1 ++ ") to ("
                        ++ ToString rt x2 ++ "," ++ ToString rt y2 ++ ")."))
           context.

Definition newline : string := String (ascii_of_nat 10) EmptyString.

Definition listShapes_handler (rt : Runtime) (input : gmap string value)
    (context : McpToolContext) : outcome :=
  let lines :=
    List.map
      (fun s =>
         let props := String.concat ", " (List.map Layers.key (Layers.properties s)) in
         ("• " ++ displayName s ++ " (" ++ typeId s ++ ") — properties: "
          ++ props)%string)
      Layers.layerTypes in
  Resolved (textResult ("Available shapes:" ++ newline
                        ++ String.concat newline lines))
           context.

(** [shapeMcpTools] *)
Inductive Tool : Type :=
  | add_shape
  | set_shape_style
  | set_polygon
  | add_line
  | list_shapes.

Definition handler (t : Tool) : Runtime -> gmap string value
    -> McpToolContext -> outcome :=
  match t with
  | add_shape => addShape_handler
  | set_shape_style => setShapeStyle_handler
  | set_polygon => setPolygon_handler
  | add_line => addLine_handler
  | list_shapes => listShapes_handler
  end.

(** The keys [add_shape] copies from the input. *)
Definition merged_keys : list string :=
  [ "fillColor"; "strokeColor"; "strokeWidth"; "sides"; "points";
    "cornerRadius" ]%string.

(** The context an outcome leaves behind. *)
Definition outcome_context (o : outcome) : McpToolContext :=
  match o with
  | Resolved _ context => context
  | Rejected _ context => context
  end.

(** The layers passed to [layers.add] among the recorded calls. *)
Fixpoint added_layers (cs : list HostCall) : list DesignLayer :=
  match cs with
  | CallAdd l :: r => l :: added_layers r
  | _ :: r => added_layers r
  | [] => []
  end.

(** *** Sample data for the worked examples *)

Fixpoint frac_digits (fuel : nat) (r d : Z) : string :=
  match fuel with
  | O => ""
  | S fuel' =>
      if r =? 0 then ""
      else String (ascii_of_nat (48 + Z.to_nat (r * 10 / d)))
                  (frac_digits fuel' (r * 10 mod d) d)
  end.

(** Number-to-string for numbers with a short decimal expansion; the
    exponent notation of very large and very small numbers is left out. *)
Definition decimal_of_number (n : number) : string :=
  match n with
  | NaN => "NaN"
  | Inf false => "Infinity"
  | Inf true => "-Infinity"
  | Fin q =>
      let a := Z.abs (Qnum q) in
      let d := Z.pos (Qden q) in
      let frac := frac_digits 20 (a mod d) d in
      ((if (Qnum q <? 0)%Z then "-" else "")
       ++ NilZero.string_of_uint (N.to_uint (Z.to_N (a / d)))
       ++ (if String.eqb frac "" then "" else "." ++ frac))%string
  end.

Definition sample_runtime : Runtime :=
  {| now36 := "m2x9k4ap"; random36 := "0.k3f9z1q8w2";
     numberToString := decimal_of_number |}.

Definition empty_context : McpToolContext := {| stack := []; calls := [] |}.

(** [createMockLayer] of the tool tests, with the layer type as argument. *)
Definition createMockLayer (type_ : string) : DesignLayer :=
  {| id := "layer-1"; type := type_; name := "Rectangle";
     visible := true; locked := false; opacity := num_of_Z 1;
     blendMode := "normal";
     transform :=
       {| x := num 100; y := num 100; width := num 200; height := num 200;
          rotation := num 0; scaleX := num 1; scaleY := num 1;
          anchorX := num 0.5; anchorY := num 0.5 |};
     properties :=
       <["fillColor" := JStr "#ffffff"]> (<["fillEnabled" := JBool true]> ∅) |}.

Definition polygon_layer_1 : DesignLayer := createMockLayer "shapes:polygon".

Definition polygon_context : McpToolContext :=
  {| stack := [polygon_layer_1]; calls := [] |}.

(** [{shape: "star", points: 8}] *)
Definition star_8_input : gmap string value :=
  <["shape" := JStr "star"]> (<["points" := num 8]> ∅).

(** [{shape: "rect", strokeWidth: 3}] *)
Definition rect_stroke_input : gmap string value :=
  <["shape" := JStr "rect"]> (<["strokeWidth" := num 3]> ∅).

(** [{x1: 10, y1: 0, x2: 0, y2: 0}] *)
Definition leftward_line_input : gmap string value :=
  <["x1" := num 10]> (<["y1" := num 0]> (<["x2" := num 0]>
    (<["y2" := num 0]> ∅))).

End Tools.

(** ** Validators ([validate] of the five layer types) *)

Module Validators.

Import Layers(prop).

Record ValidationError : Type := { property : string; message : string }.

(** [typeof v !== "number"] *)
Definition not_a_number_type (v : value) : bool :=
  match v with JNum _ => false | _ => true end.

(** [errors.length > 0 ? errors : null] *)
Definition errors_or_null (errors : list ValidationError)
    : option (list ValidationError) :=
  if (0 <? List.length errors)%nat then Some errors else None.

(** rect.ts *)
Definition rect_validate (properties : gmap string value)
    : option (list ValidationError) :=
  let errors := [] in
  let cr := prop properties "cornerRadius" in
  let errors :=
    if is_defined cr
       && (not_a_number_type cr || num_ltb (ToNumber cr) (num_of_Z 0))
    then errors ++ [ {| property := "cornerRadius";
                        message := "Corner radius must be >= 0" |} ]
    else errors in
  errors_or_null errors.

(** ellipse.ts *)
Definition ellipse_validate (properties : gmap string value)
    : option (list ValidationError) := None.

(** line.ts *)
Definition line_validate (properties : gmap string value)
    : option (list ValidationError) :=
  let errors := [] in
  let sw := prop properties "strokeWidth" in
  let errors :=
    if not_a_number_type sw || num_ltb (ToNumber sw) (num_of_Q 0.5)
    then errors ++ [ {| property := "strokeWidth";
                        message := "Line width must be >= 0.5" |} ]
    else errors in
  errors_or_null errors.

(** polygon.ts *)
Definition polygon_validate (properties : gmap string value)
    : option (list ValidationError) :=
  let errors := [] in
  let sides := prop properties "sides" in
  let errors :=
    if not_a_number_type sides
       || num_ltb (ToNumber sides) (num_of_Z 3)
       || num_gtb (ToNumber sides) (num_of_Z 100)
    then errors ++ [ {| property := "sides";
                        message := "Sides must be 3–100" |} ]
    else errors in
  errors_or_null errors.

(** star.ts *)
Definition star_validate (properties : gmap string value)
    : option (list ValidationError) :=
  let errors := [] in
  let pts := prop properties "points" in
  let errors :=
    if not_a_number_type pts
       || num_ltb (ToNumber pts) (num_of_Z 3)
       || num_gtb (ToNumber pts) (num_of_Z 50)
    then errors ++ [ {| property := "points";
                        message := "Points must be 3–50" |} ]
    else errors in
  let ir := prop properties "innerRadius" in
  let errors :=
    if not_a_number_type ir
       || num_ltb (ToNumber ir) (num_of_Q 0.05)
       || num_gtb (ToNumber ir) (num_of_Q 0.95)
    then errors ++ [ {| property := "innerRadius";
                        message := "Inner radius must be 0.05–0.95" |} ]
    else errors in
  errors_or_null errors.

(** The errors the validators report. *)
Definition cornerRadius_error : ValidationError :=
  {| property := "cornerRadius"; message := "Corner radius must be >= 0" |}.
Definition strokeWidth_error : ValidationError :=
  {| property := "strokeWidth"; message := "Line width must be >= 0.5" |}.
Definition sides_error : ValidationError :=
  {| property := "sides"; message := "Sides must be 3–100" |}.
Definition points_error : ValidationError :=
  {| property := "points"; message := "Points must be 3–50" |}.
Definition innerRadius_error : ValidationError :=
  {| property := "innerRadius"; message := "Inner radius must be 0.05–0.95" |}.

(** The validator registered with each layer type, by [typeId]. *)
Definition validate (typeId : string) (properties : gmap string value)
    : option (list ValidationError) :=
  if String.eqb typeId "shapes:rect" then rect_validate properties
  else if String.eqb typeId "shapes:ellipse" then ellipse_validate properties
  else if String.eqb typeId "shapes:line" then line_validate properties
  else if String.eqb typeId "shapes:polygon" then polygon_validate properties
  else if String.eqb typeId "shapes:star" then star_validate properties
  else None.

(** The property keys a validator reads. *)
Definition validated_keys (typeId : string) : list string :=
  if String.eqb typeId "shapes:rect" then ["cornerRadius"]
  else if String.eqb typeId "shapes:line" then ["strokeWidth"]
  else if String.eqb typeId "shapes:polygon" then ["sides"]
  else if String.eqb typeId "shapes:star" then ["points"; "innerRadius"]
  else [].

End Validators.

(** ** The ellipse renderer (ellipse.ts) *)

Module Ellipse.

Import Layers(CanvasOp, LayerBounds, applyShapeStyle, two, zero).

(** The end angle of the arc is [Math.PI * 2], which is no rational. *)
Inductive angle : Type :=
  | Radians (n : number)
  | TwoPi.

(** The operations of a context that also receives [ellipse] calls. *)
Inductive DrawOp : Type :=
  | Op (op : CanvasOp)
  | EllipseArc (cx cy rx ry rotation startAngle : number) (endAngle : angle).

(** The calls [applyShapeStyle] makes, on a context of this kind. *)
Definition applyShapeStyle_on (properties : gmap string value)
    (ctx : list DrawOp) : list DrawOp :=
  ctx ++ (Op <$> applyShapeStyle properties []).

Definition ellipse_render (properties : gmap string value)
    (ctx : list DrawOp) (bounds : LayerBounds) : list DrawOp :=
  let cx := num_add (Layers.x bounds) (num_div (Layers.width bounds) two) in
  let cy := num_add (Layers.y bounds) (num_div (Layers.height bounds) two) in
  let rx := num_div (Layers.width bounds) two in
  let ry := num_div (Layers.height bounds) two in
  let ctx := ctx ++ [Op Layers.Save; Op Layers.BeginPath] in
  let ctx := ctx ++ [EllipseArc cx cy rx ry zero zero TwoPi] in
  let ctx := applyShapeStyle_on properties ctx in
  ctx ++ [Op Layers.Restore].

End Ellipse.

(** ** SVG export ([renderSVG] of rect.ts, ellipse.ts and line.ts) *)

Module Svg.

Import Layers(prop, LayerBounds, zero, two).
Import Tools(Runtime, ToString, numberToString).

(** The double-quote character. *)
Definition dq : string := String (ascii_of_nat 34) EmptyString.

(** [name="text"] *)
Definition attr (name text : string) : string :=
  (name ++ "=" ++ dq ++ text ++ dq)%string.

Definition rect_renderSVG (rt : Runtime) (properties : gmap string value)
    (bounds : LayerBounds) : string :=
  let fill := nullish (prop properties "fillColor") (JStr "#ffffff") in
  let stroke := nullish (prop properties "strokeColor") (JStr "#000000") in
  let strokeWidth := nullish (prop properties "strokeWidth") (JNum zero) in
  let cornerRadius := nullish (prop properties "cornerRadius") (JNum zero) in
  ("<rect " ++ attr "x" (numberToString rt (Layers.x bounds))
   ++ " " ++ attr "y" (numberToString rt (Layers.y bounds))
   ++ " " ++ attr "width" (numberToString rt (Layers.width bounds))
   ++ " " ++ attr "height" (numberToString rt (Layers.height bounds))
   ++ " " ++ attr "rx" (ToString rt cornerRadius)
   ++ " " ++ attr "fill" (ToString rt fill)
   ++ " " ++ attr "stroke" (ToString rt stroke)
   ++ " " ++ attr "stroke-width" (ToString rt strokeWidth)
   ++ "/>")%string.

Definition ellipse_renderSVG (rt : Runtime) (properties : gmap string value)
    (bounds : LayerBounds) : string :=
  let fill := nullish (prop properties "fillColor") (JStr "#ffffff") in
  let stroke := nullish (prop properties "strokeColor") (JStr "#000000") in
  let strokeWidth := nullish (prop properties "strokeWidth") (JNum zero) in
  let cx := num_add (Layers.x bounds) (num_div (Layers.width bounds) two) in
  let cy := num_add (Layers.y bounds) (num_div (Layers.height bounds) two) in
  ("<ellipse " ++ attr "cx" (numberToString rt cx)
   ++ " " ++ attr "cy" (numberToString rt cy)
   ++ " " ++ attr "rx" (numberToString rt (num_div (Layers.width bounds) two))
   ++ " " ++ attr "ry" (numberToString rt (num_div (Layers.height bounds) two))
   ++ " " ++ attr "fill" (ToString rt fill)
   ++ " " ++ attr "stroke" (ToString rt stroke)
   ++ " " ++ attr "stroke-width" (ToString rt strokeWidth)
   ++ "/>")%string.

Definition line_renderSVG (rt : Runtime) (properties : gmap string value)
    (bounds : LayerBounds) : string :=
  let color := nullish (prop properties "strokeColor") (JStr "#ffffff") in
  let width_ := nullish (prop properties "strokeWidth") (JNum two) in
  let cap := nullish (prop properties "lineCap") (JStr "round") in
  ("<line " ++ attr "x1" (numberToString rt (Layers.x bounds))
   ++ " " ++ attr "y1" (numberToString rt (Layers.y bounds))
   ++ " " ++ attr "x2" (numberToString rt
                          (num_add (Layers.x bounds) (Layers.width bounds)))
   ++ " " ++ attr "y2" (numberToString rt
                          (num_add (Layers.y bounds) (Layers.height bounds)))
   ++ " " ++ attr "stroke" (ToString rt color)
   ++ " " ++ attr "stroke-width" (ToString rt width_)
   ++ " " ++ attr "stroke-linecap" (ToString rt cap)
   ++ "/>")%string.

End Svg.

(** * Properties *)

(** ** The JavaScript fragment *)

Module JsProofs.

Example Number_integer : StringToNumber "5" = num_of_Z 5.
Proof. vm_compute. reflexivity. Qed.

Example Number_not_a_number : StringToNumber "abc" = NaN.
Proof. reflexivity. Qed.

Example Number_empty : StringToNumber "" = num_of_Z 0.
Proof. reflexivity. Qed.

Example Number_trimmed_exponent : StringToNumber " -2.50e1 " = num_of_Z (-25).
Proof. vm_compute. reflexivity. Qed.

Example Number_hexadecimal : StringToNumber "0x1F" = num_of_Z 31.
Proof. vm_compute. reflexivity. Qed.

Example Number_lone_dot : StringToNumber "." = NaN.
Proof. reflexivity. Qed.

Example split_on_commas :
  split_on "," "0,-2,abc" = ["0"; "-2"; "abc"]%string.
Proof. reflexivity. Qed.

Example split_on_empty : split_on "," "" = [""%string].
Proof. reflexivity. Qed.

(** [split] returns one more piece than there are separators. *)
Lemma split_on_nonempty (sep : ascii) (s : string) : split_on sep s <> [].
Proof.
  induction s as [|c r IH]; simpl; [discriminate|].
  destruct (Ascii.eqb c sep); [discriminate|].
  destruct (split_on sep r); [contradiction|discriminate].
Qed.

End JsProofs.

(** ** Vertex generators *)

Module GeometryProofs.

Import Geometry.
Local Open Scope R_scope.

(** The loop body runs once for each index below the bound, in order. *)
Lemma for_push_spec {A : Type} (f : Z -> A) (bound : Z) :
  forall (fuel : nat) (i : Z) (acc : list A),
    (Z.to_nat (bound - i) <= fuel)%nat ->
    for_push f bound fuel i acc
    = acc ++ ((fun k => f (i + Z.of_nat k)%Z) <$> seq 0 (Z.to_nat (bound - i))).
Proof.
  induction fuel as [|fuel IH]; intros i acc Hfuel; simpl.
  - replace (Z.to_nat (bound - i)) with 0%nat by lia.
    simpl. now rewrite app_nil_r.
  - destruct (Z.ltb_spec i bound) as [Hlt|Hge].
    + rewrite IH by lia.
      replace (Z.to_nat (bound - i)) with (S (Z.to_nat (bound - (i + 1)))) by lia.
      rewrite <- app_assoc. f_equal. simpl.
      rewrite Z.add_0_r. f_equal.
      rewrite <- seq_shift, <- list_fmap_compose.
      apply list_fmap_ext. intros _ k _. simpl. f_equal. lia.
    + replace (Z.to_nat (bound - i)) with 0%nat by lia.
      simpl. now rewrite app_nil_r.
Qed.

(** More fuel than the bound never changes the result: the loop has left
    through its condition. *)
Lemma for_push_fuel {A : Type} (f : Z -> A) (bound : Z) (fuel : nat) :
  (Z.to_nat bound <= fuel)%nat ->
  for_push f bound fuel 0%Z [] = for_push f bound (Z.to_nat bound) 0%Z [].
Proof.
  intros H. rewrite !for_push_spec by (rewrite Z.sub_0_r; lia). reflexivity.
Qed.

Lemma for_push_all {A : Type} (f : Z -> A) (bound : Z) :
  for_push f bound (Z.to_nat bound) 0%Z []
  = (fun k => f (Z.of_nat k)) <$> seq 0 (Z.to_nat bound).
Proof.
  rewrite for_push_spec by (rewrite Z.sub_0_r; lia).
  rewrite Z.sub_0_r. reflexivity.
Qed.

Lemma for_push_length {A : Type} (f : Z -> A) (bound : Z) :
  List.length (for_push f bound (Z.to_nat bound) 0%Z []) = Z.to_nat bound.
Proof. rewrite for_push_all, length_fmap. apply length_seq. Qed.

Lemma for_push_lookup {A : Type} (f : Z -> A) (bound i : Z) :
  (0 <= i < bound)%Z ->
  for_push f bound (Z.to_nat bound) 0%Z [] !! Z.to_nat i = Some (f i).
Proof.
  intros Hi. rewrite for_push_all, list_lookup_fmap.
  rewrite lookup_seq_lt by lia. simpl. f_equal. f_equal. lia.
Qed.










End GeometryProofs.

(** ** Layer types *)

Module LayersProofs.

Import Layers.

#[local] Set Warnings "-clear-no-such-hyp".

Lemma defaults_fold_dom (schemas : list LayerPropertySchema)
    (m : gmap string value) :
  dom (fold_left (fun props schema => <[key schema := default schema]> props)
                 schemas m)
  = dom m ∪ list_to_set (key <$> schemas).
Proof.
  revert m. induction schemas as [|a r IH]; intros m; simpl.
  - set_solver.
  - rewrite IH, dom_insert_L. set_solver.
Qed.

Lemma defaults_fold_other (schemas : list LayerPropertySchema)
    (m : gmap string value) (k : string) :
  k ∉ key <$> schemas ->
  fold_left (fun props schema => <[key schema := default schema]> props)
            schemas m !! k = m !! k.
Proof.
  revert m. induction schemas as [|a r IH]; intros m Hk; simpl; [done|].
  rewrite fmap_cons, not_elem_of_cons in Hk. destruct Hk as [Hne Hk].
  rewrite IH by done. by rewrite lookup_insert_ne.
Qed.

Lemma defaults_fold_lookup (schemas : list LayerPropertySchema)
    (m : gmap string value) (s : LayerPropertySchema) :
  NoDup (key <$> schemas) -> s ∈ schemas ->
  fold_left (fun props schema => <[key schema := default schema]> props)
            schemas m !! key s = Some (default s).
Proof.
  revert m. induction schemas as [|a r IH]; intros m Hnd Hs; simpl.
  - by apply elem_of_nil in Hs.
  - rewrite fmap_cons in Hnd. apply NoDup_cons in Hnd as [Ha Hnd].
    apply elem_of_cons in Hs as [->|Hs].
    + rewrite defaults_fold_other by done. apply lookup_insert_eq.
    + by apply IH.
Qed.

(** No layer type declares a key twice. *)
Lemma schema_keys_NoDup (t : LayerTypeDefinition) :
  t ∈ layerTypes -> NoDup (key <$> properties t).
Proof.
  unfold layerTypes. rewrite !elem_of_cons, elem_of_nil.
  intros [->|[->|[->|[->|[->|[]]]]]];
    apply (bool_decide_unpack _); vm_compute; reflexivity.
Qed.

Lemma createDefault_defaults_of (t : LayerTypeDefinition) :
  t ∈ layerTypes -> createDefault t = defaults_of (properties t).
Proof.
  unfold layerTypes. rewrite !elem_of_cons, elem_of_nil.
  intros [->|[->|[->|[->|[->|[]]]]]]; reflexivity.
Qed.

(** C3. For each of the five layer types, the key set of [createDefault()]
    is exactly the set of keys of the schema list, and each key is mapped to
    the default its schema entry declares; rectangle cornerRadius is 0, star
    innerRadius 0.4 and polygon sides 6. *)
Theorem createDefault_schema (t : LayerTypeDefinition) :
  t ∈ layerTypes ->
  dom (createDefault t) = list_to_set (key <$> properties t)
  /\ (forall s : LayerPropertySchema,
        s ∈ properties t -> createDefault t !! key s = Some (default s))
  /\ createDefault rectLayerType !! "cornerRadius" = Some (num 0)
  /\ createDefault starLayerType !! "innerRadius" = Some (num 0.4)
  /\ createDefault polygonLayerType !! "sides" = Some (num 6).
Proof.
  intros Ht. rewrite (createDefault_defaults_of t Ht). unfold defaults_of.
  split; [|split].
  - rewrite defaults_fold_dom, dom_empty_L. set_solver.
  - intros s Hs. apply defaults_fold_lookup; [|done].
    by apply schema_keys_NoDup.
  - split; [|split]; reflexivity.
Qed.

Lemma createDefault_schema_witness :
  starLayerType ∈ layerTypes
  /\ dom (createDefault starLayerType)
     = list_to_set (key <$> properties starLayerType).
Proof.
  assert (H : starLayerType ∈ layerTypes) by (unfold layerTypes; set_solver).
  split; [exact H|].
  exact (proj1 (createDefault_schema starLayerType H)).
Defined.

(** *** The rectangle renderer *)

(** [applyShapeStyle] only paints: it appends to the context, and none of
    the operations it appends constructs a path. *)
Lemma applyShapeStyle_paints (properties : LayerProperties) :
  exists style : Ctx,
    Forall (fun op => is_path_op op = false) style
    /\ forall ctx : Ctx, applyShapeStyle properties ctx = ctx ++ style.
Proof.
  unfold applyShapeStyle.
  destruct (truthy (nullish (prop properties "fillEnabled") (JBool true)));
    destruct (truthy (nullish (prop properties "strokeEnabled") (JBool false)));
    try destruct (num_gtb _ zero);
    eexists; (split; [|intros ctx; rewrite <- ?app_assoc; try reflexivity;
                        symmetry; apply app_nil_r]);
    repeat constructor.
Qed.

Lemma Qc_ltb_false (a b : Qc) : Qc_ltb a b = false <-> Qle (this b) (this a).
Proof.
  unfold Qc_ltb. rewrite negb_false_iff. apply Qle_bool_iff.
Qed.

Lemma Qc_ltb_true (a b : Qc) : Qc_ltb a b = true <-> Qlt (this a) (this b).
Proof.
  unfold Qc_ltb. rewrite negb_true_iff, <- not_true_iff_false, Qle_bool_iff.
  split; [apply Qnot_le_lt | apply Qlt_not_le].
Qed.

(** [Math.min] of three finite numbers is one of them and is below each. *)
Lemma Math_min_finite (a b c : Qc) :
  exists m : Qc,
    Math_min [Fin a; Fin b; Fin c] = Fin m
    /\ (m = a \/ m = b \/ m = c)
    /\ Qc_ltb a m = false /\ Qc_ltb b m = false /\ Qc_ltb c m = false.
Proof.
  unfold Math_min; simpl. unfold num_min2, num_ltb.
  destruct (Qc_ltb b a) eqn:Hba;
    [destruct (Qc_ltb c b) eqn:Hcb | destruct (Qc_ltb c a) eqn:Hca];
    eexists; (split; [reflexivity|]); (split; [auto|]);
    rewrite ?Qc_ltb_false, ?Qc_ltb_true in *;
    repeat split; 
    try apply Qle_refl; try assumption;
    try (apply Qlt_le_weak; assumption).
  all: try (apply Qlt_le_weak; eapply Qlt_trans; eassumption).
  all: try (eapply Qle_trans; [apply Qlt_le_weak|]; eassumption).
  all: try (eapply Qle_trans; [|apply Qlt_le_weak]; eassumption).
  all: try (eapply Qle_trans;  eassumption).
Qed.

(** C4. The rectangle renderer constructs exactly one path: a rounded
    rectangle on the bounds with radius
    min(cornerRadius, width / 2, height / 2) when the resolved cornerRadius
    is > 0, the plain rectangle on the bounds otherwise; everything after it
    only paints.  With bounds (0, 0, 40, 100) and cornerRadius 100 the radius
    is 20. *)
Theorem rect_render_path (properties : LayerProperties) (ctx : Ctx)
    (bounds : LayerBounds) :
  let cornerRadius := nullish (prop properties "cornerRadius") (JNum zero) in
  let r := Math_min [ ToNumber cornerRadius;
                      num_div (width bounds) two;
                      num_div (height bounds) two ] in
  let shape :=
    if num_gtb (ToNumber cornerRadius) zero
    then RoundRect (x bounds) (y bounds) (width bounds) (height bounds) r
    else Rect (x bounds) (y bounds) (width bounds) (height bounds) in
  (exists style : Ctx,
      Forall (fun op => is_path_op op = false) style
      /\ rect_render properties ctx bounds
         = ctx ++ [Save; BeginPath; shape] ++ style ++ [Restore])
  /\ rect_render (<["cornerRadius" := num 100]> ∅) [] bounds_40_100
     = [ Save; BeginPath;
         RoundRect (num_of_Z 0) (num_of_Z 0) (num_of_Z 40) (num_of_Z 100)
                   (num_of_Z 20);
         SetFillStyle (JStr "#ffffff"); Fill; Restore ].
Proof.
  intros cornerRadius r shape. split.
  - destruct (applyShapeStyle_paints properties) as (style & Hstyle & Happ).
    exists style. split; [exact Hstyle|].
    unfold rect_render. fold cornerRadius.
    subst shape r. rewrite Happ.
    destruct (num_gtb (ToNumber cornerRadius) zero);
      rewrite <- !app_assoc; reflexivity.
  - vm_compute. reflexivity.
Qed.

(** The renderer tests of the repository, replayed. *)
Example rect_render_default :
  rect_render (createDefault rectLayerType) [] BOUNDS
  = [ Save; BeginPath;
      Rect (num_of_Z 0) (num_of_Z 0) (num_of_Z 200) (num_of_Z 200);
      SetFillStyle (JStr "#ffffff"); Fill; Restore ].
Proof. vm_compute. reflexivity. Qed.

Example rect_render_rounded :
  rect_render (<["cornerRadius" := num 10]> (createDefault rectLayerType))
              [] BOUNDS
  = [ Save; BeginPath;
      RoundRect (num_of_Z 0) (num_of_Z 0) (num_of_Z 200) (num_of_Z 200)
                (num_of_Z 10);
      SetFillStyle (JStr "#ffffff"); Fill; Restore ].
Proof. vm_compute. reflexivity. Qed.

(** *** The line renderer *)

Example line_render_default :
  line_render (createDefault lineLayerType) [] BOUNDS
  = Normal [ Save; BeginPath; MoveTo (num_of_Z 0) (num_of_Z 0);
             LineTo (num_of_Z 200) (num_of_Z 200);
             SetStrokeStyle (JStr "#ffffff"); SetLineWidth (num 2);
             SetLineCap (JStr "round"); Stroke; Restore ].
Proof. vm_compute. reflexivity. Qed.

Example line_render_dashed :
  line_render (<["dashPattern" := JStr "5,3"]> (createDefault lineLayerType))
              [] BOUNDS
  = Normal [ Save; BeginPath; MoveTo (num_of_Z 0) (num_of_Z 0);
             LineTo (num_of_Z 200) (num_of_Z 200);
             SetStrokeStyle (JStr "#ffffff"); SetLineWidth (num 2);
             SetLineCap (JStr "round");
             SetLineDash [num_of_Z 5; num_of_Z 3]; Stroke; Restore ].
Proof. vm_compute. reflexivity. Qed.

Example line_render_all_filtered :
  line_render (<["dashPattern" := JStr "0,-2,abc"]> (createDefault lineLayerType))
              [] BOUNDS
  = line_render (createDefault lineLayerType) [] BOUNDS.
Proof. vm_compute. reflexivity. Qed.

(** A truthy dashPattern that is not a string makes the render throw. *)
Example line_render_number_pattern :
  exists ctx : Ctx,
    line_render (<["dashPattern" := num 5]> ∅) [] BOUNDS
    = Thrown ctx "TypeError: dashStr.split is not a function".
Proof. eexists. vm_compute. reflexivity. Qed.







End LayersProofs.

(** ** Tool handlers *)

Module ToolsProofs.

Import Tools.
Import Layers(prop, num, createDefault, typeId).

#[local] Set Warnings "-clear-no-such-hyp".

Example generateLayerId_sample :
  generateLayerId sample_runtime = "layer-m2x9k4ap-k3f9z1"%string.
Proof. reflexivity. Qed.

Example decimal_of_number_sample :
  decimal_of_number (num_of_Q (-12.5)) = "-12.5"%string.
Proof. reflexivity. Qed.

(** *** add_shape: unknown kinds *)

(** A kind that [SHAPE_TYPES] neither owns nor inherits is answered with an
    error result, and the context is left as it was. *)
Lemma addShape_unknown_error (rt : Runtime) (input : gmap string value)
    (context : McpToolContext) :
  SHAPE_TYPES_get (ToString rt (prop input "shape")) = NoMember ->
  addShape_handler rt input context
  = Resolved (errorResult ("Unknown shape type '"
                           ++ ToString rt (prop input "shape") ++ "'."))
             context.
Proof. intros H. unfold addShape_handler. rewrite H. reflexivity. Qed.

(** No kind outside the four registered ones reaches [layers.add] or
    [emitChange]. *)
Lemma addShape_unregistered_no_mutation (rt : Runtime)
    (input : gmap string value) (context : McpToolContext) :
  assoc (ToString rt (prop input "shape")) SHAPE_TYPES = None ->
  outcome_context (addShape_handler rt input context) = context.
Proof.
  intros H. unfold addShape_handler, SHAPE_TYPES_get. rewrite H.
  destruct (mem_string _ _); reflexivity.
Qed.

Example addShape_hexaflop :
  addShape_handler sample_runtime {[ "shape" := JStr "hexaflop" ]} empty_context
  = Resolved (errorResult "Unknown shape type 'hexaflop'.") empty_context.
Proof. reflexivity. Qed.

(** C6, at the input [{shape: "constructor"}]. The kind is not a registered
    one, yet the read [SHAPE_TYPES["constructor"]] finds the member inherited
    from [Object.prototype], the guard [!shapeDef] lets it through, and the
    handler rejects with a TypeError in place of returning an error-flagged
    result.  The context is untouched. *)
Theorem addShape_inherited_kind_rejects :
  assoc "constructor" SHAPE_TYPES = None
  /\ addShape_handler sample_runtime {[ "shape" := JStr "constructor" ]}
                      empty_context
     = Rejected "TypeError: shapeDef.createDefault is not a function"
                empty_context.
Proof. split; reflexivity. Qed.

(** The tool tests of the repository, replayed. *)
Example addShape_rect_test :
  exists (layer : DesignLayer) (context' : McpToolContext),
    addShape_handler sample_runtime
      (<["shape" := JStr "rect"]> (<["x" := num 50]> (<["y" := num 50]>
         (<["fillColor" := JStr "#ff0000"]> ∅))))
      empty_context
    = Resolved (textResult "Added Rectangle layer 'layer-m2x9k4ap-k3f9z1'.")
               context'
    /\ calls context' = [CallAdd layer; CallEmitChange "layer-added"]
    /\ type layer = "shapes:rect"%string
    /\ properties layer !! "fillColor" = Some (JStr "#ff0000")
    /\ x (transform layer) = num 50.
Proof.
  eexists. eexists. split; [reflexivity|]. split; [reflexivity|].
  repeat split; vm_compute; reflexivity.
Qed.

Example setShapeStyle_test :
  exists context' : McpToolContext,
    setShapeStyle_handler sample_runtime
      (<["layerId" := JStr "layer-1"]> (<["fillColor" := JStr "#00ff00"]>
         (<["strokeWidth" := num 3]> (<["strokeEnabled" := JBool true]> ∅))))
      {| stack := [createMockLayer "shapes:rect"]; calls := [] |}
    = Resolved (textResult "Updated style on shape layer 'layer-1'.") context'
    /\ calls context'
       = [ CallUpdateProperties (JStr "layer-1")
             (<["fillColor" := JStr "#00ff00"]> (<["strokeWidth" := num 3]>
                (<["strokeEnabled" := JBool true]> ∅)));
           CallEmitChange "layer-updated" ].
Proof. eexists. split; vm_compute; reflexivity. Qed.

Example setShapeStyle_non_shape_test :
  let context :=
    {| stack := [createMockLayer "typography:text"]; calls := [] |} in
  setShapeStyle_handler sample_runtime
    (<["layerId" := JStr "layer-1"]> (<["fillColor" := JStr "#ff0000"]> ∅))
    context
  = Resolved (errorResult "Layer 'layer-1' is not a shape layer.") context.
Proof. vm_compute. reflexivity. Qed.

Example setPolygon_test :
  exists context' : McpToolContext,
    setPolygon_handler sample_runtime
      (<["layerId" := JStr "layer-1"]> (<["sides" := num 8]> ∅))
      polygon_context
    = Resolved (textResult "Updated polygon layer 'layer-1'.") context'
    /\ calls context'
       = [ CallUpdateProperties (JStr "layer-1") (<["sides" := num 8]> ∅);
           CallEmitChange "layer-updated" ].
Proof. eexists. split; vm_compute; reflexivity. Qed.

Example addLine_test :
  exists (layer : DesignLayer) (context' : McpToolContext),
    addLine_handler sample_runtime
      (<["x1" := num 10]> (<["y1" := num 20]> (<["x2" := num 300]>
         (<["y2" := num 400]> (<["strokeColor" := JStr "#00ff00"]> ∅)))))
      empty_context
    = Resolved
        (textResult
           "Added line layer 'layer-m2x9k4ap-k3f9z1' from (10,20) to (300,400).")
        context'
    /\ calls context' = [CallAdd layer; CallEmitChange "layer-added"]
    /\ type layer = "shapes:line"%string
    /\ x (transform layer) = num 10
    /\ width (transform layer) = num 290
    /\ properties layer !! "strokeColor" = Some (JStr "#00ff00").
Proof.
  eexists. eexists. split; [vm_compute; reflexivity|]. split; [reflexivity|].
  repeat split; vm_compute; reflexivity.
Qed.

(** *** Empty updates *)

Lemma style_updates_empty (input : gmap string value) :
  Forall (fun k => prop input k = JUndefined) style_keys ->
  fold_left (fun updates k => merge_key input k updates) style_keys ∅ = ∅.
Proof.
  unfold style_keys. rewrite !Forall_cons.
  intros (H1 & H2 & H3 & H4 & H5 & _). simpl. unfold merge_key.
  rewrite H1, H2, H3, H4, H5. reflexivity.
Qed.

(** [set_shape_style] reports an empty update as an error and leaves the
    context as it was. *)
Lemma setShapeStyle_empty_update (rt : Runtime) (input : gmap string value)
    (context : McpToolContext) (layer : DesignLayer) :
  layers_get context (prop input "layerId") = Some layer ->
  String.prefix "shapes:" (type layer) = true ->
  Forall (fun k => prop input k = JUndefined) style_keys ->
  setShapeStyle_handler rt input context
  = Resolved (errorResult "No style properties provided.") context.
Proof.
  intros Hget Hpre Hempty. unfold setShapeStyle_handler.
  rewrite Hget, Hpre, (style_updates_empty input Hempty). reflexivity.
Qed.

(** C7, at the input [{layerId: "layer-1"}] of [set_polygon] on a stack
    holding the polygon layer "layer-1". The input supplies neither sides nor
    rotation, and the handler still calls [updateProperties], with the empty
    update set, emits the change and resolves without the error flag;
    [set_shape_style] rejects the same input. *)
Theorem setPolygon_empty_update_accepted :
  let input : gmap string value := {[ "layerId" := JStr "layer-1" ]} in
  let o := setPolygon_handler sample_runtime input polygon_context in
  (exists context',
      o = Resolved (textResult "Updated polygon layer 'layer-1'.") context'
      /\ calls context'
         = [ CallUpdateProperties (JStr "layer-1") ∅;
             CallEmitChange "layer-updated" ])
  /\ setShapeStyle_handler sample_runtime input polygon_context
     = Resolved (errorResult "No style properties provided.") polygon_context.
Proof.
  intros input o. split.
  - eexists. split; reflexivity.
  - apply (setShapeStyle_empty_update _ _ _ polygon_layer_1);
      [reflexivity | reflexivity |].
    unfold style_keys. repeat constructor.
Qed.

(** *** add_shape: the merge onto the defaults *)

Lemma merge_key_lookup (input props : gmap string value) (k' k : string) :
  merge_key input k' props !! k
  = if decide (k' = k)
    then (if is_defined (prop input k) then Some (prop input k)
          else props !! k)
    else props !! k.
Proof.
  unfold merge_key. destruct (decide (k' = k)) as [->|Hne].
  - destruct (is_defined (prop input k)); [apply lookup_insert_eq|reflexivity].
  - destruct (is_defined (prop input k'));
      [by apply lookup_insert_ne|reflexivity].
Qed.

Ltac merge_lookup :=
  unfold addShape_merge;
  repeat first
    [ rewrite merge_key_lookup
    | rewrite lookup_insert
    | case_decide; simplify_eq
    | match goal with
      | |- context [is_defined ?v] => destruct (is_defined v) eqn:?
      end ];
  try done.

(** A key the input leaves undefined keeps its default, [strokeEnabled]
    apart. *)
Lemma addShape_merge_frame (input defaults : gmap string value) (k : string) :
  prop input k = JUndefined -> k <> "strokeEnabled"%string ->
  addShape_merge input defaults !! k = defaults !! k.
Proof.
  intros Hk Hne. merge_lookup;
    match goal with
    | H : is_defined (prop input ?k') = true |- _ =>
        rewrite Hk in H; discriminate H
    end.
Qed.

(** A key outside the copied ones and [strokeEnabled] keeps its default,
    whatever the input holds for it. *)
Lemma addShape_merge_unrelated (input defaults : gmap string value)
    (k : string) :
  k ∉ merged_keys -> k <> "strokeEnabled"%string ->
  addShape_merge input defaults !! k = defaults !! k.
Proof.
  unfold merged_keys. rewrite !not_elem_of_cons.
  intros (? & ? & ? & ? & ? & ? & _) ?. merge_lookup.
Qed.

(** A supplied key among the copied ones takes the supplied value. *)
Lemma addShape_merge_supplied (input defaults : gmap string value)
    (k : string) :
  k ∈ merged_keys -> is_defined (prop input k) = true ->
  addShape_merge input defaults !! k = Some (prop input k).
Proof.
  unfold merged_keys. rewrite !elem_of_cons, elem_of_nil.
  intros [->|[->|[->|[->|[->|[->|[]]]]]]] Hdef; merge_lookup; congruence.
Qed.

Lemma addShape_merge_strokeEnabled (input defaults : gmap string value) :
  addShape_merge input defaults !! "strokeEnabled"
  = if is_defined (prop input "strokeWidth")
    then Some (JBool (num_gtb (ToNumber (prop input "strokeWidth")) Layers.zero))
    else defaults !! "strokeEnabled".
Proof. merge_lookup. Qed.

Lemma prop_absent (input : gmap string value) (k : string) :
  input !! k = None -> prop input k = JUndefined.
Proof. unfold prop. now intros ->. Qed.

Lemma SHAPE_TYPES_get_own (k : string) (d : Layers.LayerTypeDefinition) :
  SHAPE_TYPES_get k = OwnShape d <-> assoc k SHAPE_TYPES = Some d.
Proof.
  unfold SHAPE_TYPES_get. destruct (assoc k SHAPE_TYPES) as [d'|].
  - split; congruence.
  - destruct (mem_string _ _); split; congruence.
Qed.

(** C8, as the code has it. For a known shape kind the handler adds one
    layer of that kind.  Its property bag agrees with [createDefault()] on
    every key that the input does not hold, and on every key outside the six
    copied ones, with the exception of [strokeEnabled]: when the input
    supplies [strokeWidth], [strokeEnabled] is set to [strokeWidth > 0].  A
    copied key that the input supplies takes the supplied value.
    [{shape: "star", points: 8}] gives a "shapes:star" layer whose bag is the
    star defaults with [points] set to 8. *)
Theorem addShape_properties (rt : Runtime) (input : gmap string value)
    (context : McpToolContext) (shapeDef : Layers.LayerTypeDefinition) :
  assoc (ToString rt (prop input "shape")) SHAPE_TYPES = Some shapeDef ->
  (exists (layer : DesignLayer) (message : string),
      addShape_handler rt input context
      = Resolved (textResult message)
                 (emitChange (layers_add context layer) "layer-added")
      /\ type layer = typeId shapeDef
      /\ (forall k : string,
            input !! k = None -> k <> "strokeEnabled"%string ->
            properties layer !! k = createDefault shapeDef !! k)
      /\ (forall k : string,
            k ∉ merged_keys -> k <> "strokeEnabled"%string ->
            properties layer !! k = createDefault shapeDef !! k)
      /\ (forall k : string,
            k ∈ merged_keys -> is_defined (prop input k) = true ->
            properties layer !! k = Some (prop input k))
      /\ properties layer !! "strokeEnabled"
         = if is_defined (prop input "strokeWidth")
           then Some (JBool (num_gtb (ToNumber (prop input "strokeWidth"))
                                     Layers.zero))
           else createDefault shapeDef !! "strokeEnabled")
  /\ (exists layer : DesignLayer,
        added_layers
          (calls (outcome_context
                    (addShape_handler sample_runtime star_8_input empty_context)))
        = [layer]
        /\ type layer = "shapes:star"%string
        /\ properties layer
           = <["points" := num 8]> (createDefault Layers.starLayerType)).
Proof.
  intros Hown. apply SHAPE_TYPES_get_own in Hown. split.
  - unfold addShape_handler. rewrite Hown.
    eexists. eexists. split; [reflexivity|]. simpl.
    split; [reflexivity|]. split; [|split; [|split]].
    + intros k Hk Hne. apply addShape_merge_frame; [|exact Hne].
      now apply prop_absent.
    + intros k Hk Hne. now apply addShape_merge_unrelated.
    + intros k Hk Hdef. now apply addShape_merge_supplied.
    + apply addShape_merge_strokeEnabled.
  - eexists. split; [reflexivity|]. split; reflexivity.
Qed.

Lemma addShape_properties_witness :
  assoc (ToString sample_runtime (prop star_8_input "shape")) SHAPE_TYPES
  = Some Layers.starLayerType
  /\ exists layer : DesignLayer,
       added_layers
         (calls (outcome_context
                   (addShape_handler sample_runtime star_8_input empty_context)))
       = [layer]
       /\ type layer = "shapes:star"%string
       /\ properties layer
          = <["points" := num 8]> (createDefault Layers.starLayerType).
Proof.
  assert (H : assoc (ToString sample_runtime (prop star_8_input "shape"))
                    SHAPE_TYPES = Some Layers.starLayerType) by reflexivity.
  split; [exact H|].
  exact (proj2 (addShape_properties sample_runtime star_8_input empty_context
                  Layers.starLayerType H)).
Defined.

(** C8 as stated fails on [{shape: "rect", strokeWidth: 3}]: the input does
    not hold [strokeEnabled], and the created layer has [strokeEnabled] true
    where the rectangle default is false. *)
Lemma addShape_strokeWidth_enables_stroke :
  rect_stroke_input !! "strokeEnabled" = None
  /\ exists layer : DesignLayer,
       added_layers
         (calls (outcome_context
                   (addShape_handler sample_runtime rect_stroke_input
                                     empty_context)))
       = [layer]
       /\ properties layer !! "strokeEnabled" = Some (JBool true)
       /\ createDefault Layers.rectLayerType !! "strokeEnabled"
          = Some (JBool false).
Proof.
  split; [reflexivity|].
  eexists. split; [reflexivity|]. split; reflexivity.
Qed.

(** *** add_line *)

Lemma this_mkQc (q : Q) : this (mkQc q) == q.
Proof. unfold mkQc. simpl. now rewrite !Qred_correct. Qed.





(** *** Line layers *)

Lemma SHAPE_TYPES_not_line (k : string) (d : Layers.LayerTypeDefinition) :
  SHAPE_TYPES_get k = OwnShape d -> typeId d <> "shapes:line"%string.
Proof.
  rewrite SHAPE_TYPES_get_own. unfold SHAPE_TYPES. cbn [assoc].
  repeat (destruct (String.eqb _ k); [intros [= <-]; discriminate|]).
  discriminate.
Qed.

(** C10. [add_shape] answers the kind "line" with an error-flagged result
    and leaves the context as it was; among the five tools only [add_line]
    ever passes a layer of type "shapes:line" to [layers.add], and it does
    so on every call. *)
Theorem line_only_through_addLine :
  (forall (rt : Runtime) (input : gmap string value) (context : McpToolContext),
      addShape_handler rt (<["shape" := JStr "line"]> input) context
      = Resolved (errorResult "Unknown shape type 'line'.") context)
  /\ (forall (t : Tool) (rt : Runtime) (input : gmap string value)
             (st : list DesignLayer) (l : DesignLayer),
        l ∈ added_layers
              (calls (outcome_context
                        (handler t rt input {| stack := st; calls := [] |}))) ->
        type l = "shapes:line"%string -> t = add_line)
  /\ (forall (rt : Runtime) (input : gmap string value)
             (context : McpToolContext),
        exists l : DesignLayer,
          calls (outcome_context (addLine_handler rt input context))
          = calls context ++ [CallAdd l; CallEmitChange "layer-added"]
          /\ type l = "shapes:line"%string).
Proof.
  split; [|split].
  - intros rt input context. unfold addShape_handler, prop.
    rewrite lookup_insert_eq. reflexivity.
  - intros t rt input st l Hl Hty. destruct t; simpl in Hl; try reflexivity.
    + unfold addShape_handler in Hl.
      destruct (SHAPE_TYPES_get _) as [d| |] eqn:Hget; simpl in Hl.
      * apply list_elem_of_singleton in Hl. subst l. simpl in Hty.
        now apply SHAPE_TYPES_not_line in Hget.
      * by apply elem_of_nil in Hl.
      * by apply elem_of_nil in Hl.
    + unfold setShapeStyle_handler in Hl.
      destruct (layers_get _ _); simpl in Hl; [|by apply elem_of_nil in Hl].
      destruct (negb _); simpl in Hl; [by apply elem_of_nil in Hl|].
      destruct (_ =? _)%nat; simpl in Hl; by apply elem_of_nil in Hl.
    + unfold setPolygon_handler in Hl.
      destruct (layers_get _ _); simpl in Hl; [|by apply elem_of_nil in Hl].
      destruct (negb _); simpl in Hl; by apply elem_of_nil in Hl.
    + simpl in Hl. by apply elem_of_nil in Hl.
  - intros rt input context. eexists. split.
    + unfold addLine_handler. simpl. rewrite <- app_assoc. reflexivity.
    + reflexivity.
Qed.

End ToolsProofs.

(** * Further properties *)

(** ** Vertex generators: counts, symmetries and extent *)

Module GeometryMore.

Import Geometry.
Import GeometryProofs.
Local Open Scope R_scope.


Lemma for_push_ext {A : Type} (f g : Z -> A) (bound : Z) :
  (forall i : Z, (0 <= i < bound)%Z -> f i = g i) ->
  for_push f bound (Z.to_nat bound) 0%Z []
  = for_push g bound (Z.to_nat bound) 0%Z [].
Proof.
  intros H. rewrite !for_push_all. apply list_fmap_ext.
  intros i k Hk. apply lookup_seq in Hk as [-> Hlt]. apply H. lia.
Qed.

(** X1. Neither generator clamps its count: below 3 the lists are just shorter,
    and from 0 downwards they are empty. *)
Theorem vertex_count_unclamped (cx cy r ratio : R) (n : Z) (rotation : R) :
  List.length (polygonPoints cx cy r n rotation) = Z.to_nat n
  /\ List.length (starPoints cx cy r ratio n rotation) = Z.to_nat (2 * n)
  /\ (polygonPoints cx cy r n rotation = [] <-> (n <= 0)%Z)
  /\ (starPoints cx cy r ratio n rotation = [] <-> (n <= 0)%Z).
Proof.
  assert (Hp : List.length (polygonPoints cx cy r n rotation) = Z.to_nat n)
    by apply for_push_length.
  assert (Hs : List.length (starPoints cx cy r ratio n rotation)
               = Z.to_nat (2 * n)).
  { unfold starPoints. rewrite for_push_length. f_equal. lia. }
  split; [exact Hp|]. split; [exact Hs|]. split.
  - rewrite <- length_zero_iff_nil, Hp. lia.
  - rewrite <- length_zero_iff_nil, Hs. lia.
Qed.















(** X7. A star whose inner radius ratio is 1 is the regular polygon with twice
    as many sides. *)
Theorem star_ratio_one_is_polygon (cx cy r : R) (numPoints : Z) (rotation : R) :
  starPoints cx cy r 1 numPoints rotation
  = polygonPoints cx cy r (numPoints * 2) rotation.
Proof.
  unfold starPoints, polygonPoints.
  destruct (Z_le_gt_dec numPoints 0) as [Hle|Hgt].
  - replace (Z.to_nat (numPoints * 2)) with 0%nat by lia. reflexivity.
  - assert (Hn : IZR numPoints <> 0) by (apply not_0_IZR; lia).
    apply for_push_ext. intros i _. simpl.
    replace (PI * 2 / IZR (numPoints * 2)) with (PI / IZR numPoints)
      by (rewrite mult_IZR; simpl; field; exact Hn).
    rewrite Rmult_1_r. destruct (i mod 2 =? 0)%Z; reflexivity.
Qed.

(** X8. The outer vertices of a star, those at the even indices, are the
    vertices of the regular polygon with the same centre, radius, count and
    rotation. *)
Theorem star_outer_vertices (cx cy r ratio : R) (numPoints : Z)
    (rotation : R) (k : Z) :
  (0 <= k < numPoints)%Z ->
  starPoints cx cy r ratio numPoints rotation !! Z.to_nat (2 * k)
  = polygonPoints cx cy r numPoints rotation !! Z.to_nat k.
Proof.
  intros Hk. unfold starPoints, polygonPoints.
  assert (Hn : IZR numPoints <> 0) by (apply not_0_IZR; lia).
  rewrite !for_push_lookup by lia. f_equal. simpl.
  replace ((2 * k) mod 2 =? 0)%Z with true
    by (symmetry; apply Z.eqb_eq; rewrite Z.mul_comm; apply Z.mod_mul; lia).
  replace (IZR (2 * k) * (PI / IZR numPoints))
    with (IZR k * (PI * 2 / IZR numPoints))
    by (rewrite mult_IZR; simpl; field; exact Hn).
  reflexivity.
Qed.

Lemma star_outer_vertices_witness :
  (0 <= 2 < 5)%Z
  /\ starPoints 0 0 1 (2 / 5) 5 0 !! Z.to_nat (2 * 2)
     = polygonPoints 0 0 1 5 0 !! Z.to_nat 2.
Proof.
  assert (H : (0 <= 2 < 5)%Z) by lia.
  split; [exact H|].
  exact (star_outer_vertices 0 0 1 (2 / 5) 5 0 2 H).
Defined.

End GeometryMore.

(** ** Renderers: painting, fallbacks, clamping and failure *)

Module LayersMore.

Import Layers.
Import LayersProofs.

#[local] Set Warnings "-clear-no-such-hyp".

(** X9. [applyShapeStyle] leaves the calls already made untouched and appends
    its own: a fill exactly when [fillEnabled] (true when missing) is
    truthy, a stroke exactly when [strokeEnabled] (false when missing) is
    truthy and the stroke width (0 when missing) is above 0, each decided
    without regard to the other, and the fill first. *)
Theorem applyShapeStyle_fill_stroke (properties : LayerProperties) (ctx : Ctx) :
  let fills := truthy (nullish (prop properties "fillEnabled") (JBool true)) in
  let strokes :=
    truthy (nullish (prop properties "strokeEnabled") (JBool false))
    && num_gtb (ToNumber (nullish (prop properties "strokeWidth") (JNum zero)))
               zero in
  exists style : Ctx,
    applyShapeStyle properties ctx = ctx ++ style
    /\ (Fill ∈ style <-> fills = true)
    /\ (Stroke ∈ style <-> strokes = true)
    /\ (fills = true -> strokes = true ->
        exists a b c : Ctx, style = a ++ Fill :: b ++ Stroke :: c).
Proof.
  intros fills strokes. subst fills strokes. unfold applyShapeStyle.
  destruct (truthy (nullish (prop properties "fillEnabled") (JBool true)));
    destruct (truthy (nullish (prop properties "strokeEnabled") (JBool false)));
    cbn [andb];
    try destruct (num_gtb (ToNumber (nullish (prop properties "strokeWidth")
                                              (JNum zero))) zero).
  all: eexists; split;
    [rewrite <- ?app_assoc; try reflexivity; symmetry; apply app_nil_r|].
  all: cbn [app]; rewrite ?elem_of_cons, ?elem_of_nil.
  all: split; [split; intuition congruence|].
  all: split; [split; intuition congruence|].
  all: try (intros; discriminate).
  intros _ _.
  eexists [_]. eexists [_; _]. exists []. reflexivity.
Qed.

(** *** Fallbacks and schema defaults *)

Lemma nullish_union_default (properties defaults : LayerProperties)
    (k : string) (fallback : value) :
  defaults !! k = Some fallback -> nullish fallback fallback = fallback ->
  nullish (prop (properties ∪ defaults) k) fallback
  = nullish (prop properties k) fallback.
Proof.
  intros Hd Hfb. unfold prop. rewrite lookup_union, Hd.
  destruct (properties !! k) as [v|]; simpl; [reflexivity|exact Hfb].
Qed.

Ltac fallbacks :=
  repeat match goal with
  | |- context [nullish (prop (?p ∪ ?d) ?k) ?fb] =>
      rewrite (nullish_union_default p d k fb) by (vm_compute; reflexivity)
  end.

(** X10. The inline fallbacks of the renderers ([?? default]) agree with the
    schema defaults: completing a bag with the defaults of [createDefault]
    for the keys it lacks does not change what the rectangle, line and
    ellipse renderers draw. *)
Theorem render_fallbacks_are_defaults (properties : LayerProperties)
    (ctx : Ctx) (dctx : list Ellipse.DrawOp) (bounds : LayerBounds) :
  rect_render (properties ∪ createDefault rectLayerType) ctx bounds
  = rect_render properties ctx bounds
  /\ line_render (properties ∪ createDefault lineLayerType) ctx bounds
     = line_render properties ctx bounds
  /\ Ellipse.ellipse_render (properties ∪ createDefault ellipseLayerType)
                            dctx bounds
     = Ellipse.ellipse_render properties dctx bounds.
Proof.
  split; [|split].
  - unfold rect_render, applyShapeStyle. fallbacks. reflexivity.
  - unfold line_render. fallbacks. reflexivity.
  - unfold Ellipse.ellipse_render, Ellipse.applyShapeStyle_on, applyShapeStyle.
    fallbacks. reflexivity.
Qed.

(** *** The rounded rectangle *)

Lemma num_div_two (w : Qc) : num_div (Fin w) two = Fin (qc_div w (mkQc 2)).
Proof. reflexivity. Qed.

Lemma this_qc_half (w : Qc) : this (qc_div w (mkQc 2)) == this w / 2.
Proof.
  unfold qc_div. rewrite ToolsProofs.this_mkQc.
  rewrite (ToolsProofs.this_mkQc 2). reflexivity.
Qed.

(** X11. For finite bounds and a finite corner radius above 0, the radius of the
    rounded rectangle that is drawn is finite and is at most the requested
    radius, half the width and half the height. *)
Theorem rect_radius_within_bounds (properties : LayerProperties) (ctx : Ctx)
    (bounds : LayerBounds) (cr w h : Qc) :
  ToNumber (nullish (prop properties "cornerRadius") (JNum zero)) = Fin cr ->
  num_gtb (Fin cr) zero = true ->
  width bounds = Fin w -> height bounds = Fin h ->
  exists m : Qc,
    RoundRect (x bounds) (y bounds) (Fin w) (Fin h) (Fin m)
      ∈ rect_render properties ctx bounds
    /\ (this m <= this cr)%Q
    /\ (this m <= this w / 2)%Q
    /\ (this m <= this h / 2)%Q.
Proof.
  intros Hcr Hpos Hw Hh.
  destruct (Math_min_finite cr (qc_div w (mkQc 2)) (qc_div h (mkQc 2)))
    as (m & Hmin & _ & Ha & Hb & Hc).
  exists m. split.
  - unfold rect_render. rewrite Hcr, Hpos, Hw, Hh, !num_div_two, Hmin.
    destruct (applyShapeStyle_paints properties) as (style & _ & Happ).
    rewrite Happ, !elem_of_app, !elem_of_cons. tauto.
  - apply Qc_ltb_false in Ha, Hb, Hc.
    rewrite this_qc_half in Hb, Hc. tauto.
Qed.

Lemma rect_radius_within_bounds_witness :
  ToNumber (nullish (prop (<["cornerRadius" := num 100]> ∅) "cornerRadius")
                    (JNum zero)) = Fin (mkQc 100)
  /\ num_gtb (Fin (mkQc 100)) zero = true
  /\ width bounds_40_100 = Fin (mkQc 40)
  /\ height bounds_40_100 = Fin (mkQc 100)
  /\ exists m : Qc,
       RoundRect (x bounds_40_100) (y bounds_40_100) (Fin (mkQc 40))
                 (Fin (mkQc 100)) (Fin m)
         ∈ rect_render (<["cornerRadius" := num 100]> ∅) [] bounds_40_100
       /\ (this m <= this (mkQc 100))%Q
       /\ (this m <= this (mkQc 40) / 2)%Q
       /\ (this m <= this (mkQc 100) / 2)%Q.
Proof.
  assert (H1 : ToNumber (nullish (prop (<["cornerRadius" := num 100]> ∅)
                                       "cornerRadius") (JNum zero))
               = Fin (mkQc 100)) by (vm_compute; reflexivity).
  assert (H2 : num_gtb (Fin (mkQc 100)) zero = true) by reflexivity.
  assert (H3 : width bounds_40_100 = Fin (mkQc 40)) by reflexivity.
  assert (H4 : height bounds_40_100 = Fin (mkQc 100)) by reflexivity.
  split; [exact H1|]. split; [exact H2|]. split; [exact H3|].
  split; [exact H4|].
  exact (rect_radius_within_bounds _ [] bounds_40_100 _ _ _ H1 H2 H3 H4).
Defined.

(** *** The line renderer: failure and frame *)

(** X12. [line_render] throws exactly when the resolved dashPattern is truthy
    and is not a string (a number other than 0 and NaN, or [true]).  When it
    throws, [save] has been called and neither [stroke] nor [restore]
    follows: the context is left saved and nothing is drawn. *)
Theorem line_render_throws (properties : LayerProperties) (ctx : Ctx)
    (bounds : LayerBounds) :
  let dashStr := nullish (prop properties "dashPattern") (JStr "") in
  ((exists (c : Ctx) (e : string),
       line_render properties ctx bounds = Thrown c e)
   <-> (truthy dashStr = true /\ forall s : string, dashStr <> JStr s))
  /\ (forall (c : Ctx) (e : string),
        line_render properties ctx bounds = Thrown c e ->
        exists pre : Ctx,
          c = ctx ++ Save :: pre /\ (Restore ∉ pre) /\ (Stroke ∉ pre)).
Proof.
  intros dashStr.
  assert (Hshape :
    forall pre : Ctx, pre = [ BeginPath; MoveTo (x bounds) (y bounds);
        LineTo (num_add (x bounds) (width bounds))
               (num_add (y bounds) (height bounds));
        SetStrokeStyle (nullish (prop properties "strokeColor") (JStr "#ffffff"));
        SetLineWidth (nullish (prop properties "strokeWidth") (JNum two));
        SetLineCap (nullish (prop properties "lineCap") (JStr "round")) ] ->
      (Restore ∉ pre) /\ (Stroke ∉ pre)).
  { intros pre ->. rewrite !not_elem_of_cons.
    repeat split; try discriminate; apply not_elem_of_nil. }
  unfold line_render. fold dashStr.
  destruct (truthy dashStr) eqn:Ht.
  - destruct dashStr as [| |b|n|s] eqn:Hd; try discriminate Ht.
    + split.
      * split; [intros _; split; [reflexivity|discriminate]|].
        intros _. eexists. eexists. reflexivity.
      * intros c e [= <- _]. eexists. split; [reflexivity|].
        now apply Hshape.
    + split.
      * split; [intros _; split; [reflexivity|discriminate]|].
        intros _. eexists. eexists. reflexivity.
      * intros c e [= <- _]. eexists. split; [reflexivity|].
        now apply Hshape.
    + split.
      * split; [intros (c & e & H); discriminate H|].
        intros [_ Hns]. exfalso. now apply (Hns s).
      * intros c e H. discriminate H.
  - split.
    + split; [intros (c & e & H); discriminate H|].
      intros [H _]. discriminate H.
    + intros c e H. discriminate H.
Qed.

(** X13. The line renderer reads nothing but the four keys of its schema: bags
    that agree on them render alike, so no fill property has any effect on
    a line; the rectangle renderer likewise reads the six keys of its
    schema only. *)
Theorem renderers_read_schema_keys (p1 p2 : LayerProperties) (ctx : Ctx)
    (bounds : LayerBounds) :
  ((forall k : string, k ∈ key <$> properties lineLayerType ->
       prop p1 k = prop p2 k) ->
   line_render p1 ctx bounds = line_render p2 ctx bounds)
  /\ ((forall k : string, k ∈ key <$> properties rectLayerType ->
          prop p1 k = prop p2 k) ->
      rect_render p1 ctx bounds = rect_render p2 ctx bounds).
Proof.
  split; intros H.
  - unfold line_render.
    rewrite (H "strokeColor"), (H "strokeWidth"), (H "lineCap"),
      (H "dashPattern"); [reflexivity| | | |];
      simpl; rewrite !elem_of_cons; auto 10.
  - unfold rect_render, applyShapeStyle.
    rewrite (H "cornerRadius"), (H "fillEnabled"), (H "strokeEnabled"),
      (H "fillColor"), (H "strokeWidth"), (H "strokeColor");
      [reflexivity| | | | | |];
      simpl; rewrite !elem_of_cons; auto 10.
Qed.

End LayersMore.

(** ** The ellipse renderer *)

Module EllipseProofs.

Import Layers.
Import Ellipse.



(** The ellipse test of the repository, replayed:
    [ellipse(100, 100, 100, 100, 0, 0, Math.PI * 2)], then the white fill. *)
Example ellipse_render_default :
  ellipse_render (createDefault ellipseLayerType) [] BOUNDS
  = [ Op Save; Op BeginPath;
      EllipseArc (num_of_Z 100) (num_of_Z 100) (num_of_Z 100) (num_of_Z 100)
                 zero zero TwoPi;
      Op (SetFillStyle (JStr "#ffffff")); Op Fill; Op Restore ].
Proof. vm_compute. reflexivity. Qed.

End EllipseProofs.

(** ** Validators *)

Module ValidatorsProofs.

Import Layers(prop, createDefault, typeId, layerTypes).
Import Validators.

#[local] Set Warnings "-clear-no-such-hyp".

Lemma errors_or_null_nonempty (errors : list ValidationError) :
  errors_or_null errors <> Some [].
Proof. destruct errors; discriminate. Qed.

(** A validator answers [null] or a list with at least one error, never an
    empty list. *)
Theorem validate_never_empty (type_ : string) (properties : gmap string value) :
  validate type_ properties <> Some [].
Proof.
  unfold validate.
  repeat (destruct (String.eqb type_ _); [apply errors_or_null_nonempty ||
                                           discriminate|]).
  discriminate.
Qed.

Lemma finite_at_least (q : Qc) (z : Q) :
  num_ltb (Fin q) (num_of_Q z) = false <-> (z <= this q)%Q.
Proof.
  unfold num_of_Q. cbn [num_ltb].
  rewrite LayersProofs.Qc_ltb_false, ToolsProofs.this_mkQc. reflexivity.
Qed.

Lemma finite_at_most (q : Qc) (z : Q) :
  num_gtb (Fin q) (num_of_Q z) = false <-> (this q <= z)%Q.
Proof.
  unfold num_of_Q, num_gtb. cbn [num_ltb].
  rewrite LayersProofs.Qc_ltb_false, ToolsProofs.this_mkQc. reflexivity.
Qed.

Ltac vsimpl :=
  cbn [not_a_number_type ToNumber is_defined orb andb app];
  unfold errors_or_null;
  cbn [List.length Nat.ltb Nat.leb app orb andb].

(** X15. [polygon.validate] accepts a bag exactly when [sides] is present as a
    number that is neither below 3 nor above 100, and otherwise reports the
    single error on [sides].  For a finite number that is the range
    3..100; a missing [sides], a numeric string and [null] are rejected,
    and NaN, which compares false both ways, is accepted. *)
Theorem polygon_validate_accepts (properties : gmap string value) :
  (polygon_validate properties = None
   \/ polygon_validate properties = Some [sides_error])
  /\ (polygon_validate properties = None
      <-> exists n : number,
            prop properties "sides" = JNum n
            /\ num_ltb n (num_of_Z 3) = false
            /\ num_gtb n (num_of_Z 100) = false)
  /\ (forall q : Qc, prop properties "sides" = JNum (Fin q) ->
        (polygon_validate properties = None <-> (3 <= this q <= 100)%Q))
  /\ (prop properties "sides" = JNum NaN -> polygon_validate properties = None)
  /\ (properties !! "sides" = None -> polygon_validate properties <> None).
Proof.
  unfold polygon_validate.
  assert (Hmiss : properties !! "sides" = None ->
                  prop properties "sides" = JUndefined)
    by (unfold prop; now intros ->).
  destruct (prop properties "sides") as [| |b|n|s] eqn:Hs; vsimpl.
  1, 2, 3, 5:
    (split; [right; reflexivity|]);
    (split; [split; [discriminate|intros (n' & H & _); discriminate H]|]);
    (split; [intros q H; discriminate H|]);
    (split; [intros H; discriminate H|]); discriminate.
  destruct (num_ltb n (num_of_Z 3)) eqn:Hlo;
    [|destruct (num_gtb n (num_of_Z 100)) eqn:Hhi]; vsimpl.
  - split; [right; reflexivity|].
    split; [split; [discriminate|intros (n' & [= <-] & H & _); congruence]|].
    split; [|split; [intros [= ->]; discriminate Hlo
                    |intros H; apply Hmiss in H; discriminate H]].
    intros q [= ->]. split; [discriminate|]. intros [H _].
    apply (finite_at_least q 3) in H.
    change (num_of_Q 3) with (num_of_Z 3) in H. congruence.
  - split; [right; reflexivity|].
    split; [split; [discriminate|intros (n' & [= <-] & _ & H); congruence]|].
    split; [|split; [intros [= ->]; discriminate Hhi
                    |intros H; apply Hmiss in H; discriminate H]].
    intros q [= ->]. split; [discriminate|]. intros [_ H].
    apply (finite_at_most q 100) in H.
    change (num_of_Q 100) with (num_of_Z 100) in H. congruence.
  - split; [left; reflexivity|].
    split; [split; [intros _; exists n; auto|reflexivity]|].
    split; [|split; [reflexivity|intros H; apply Hmiss in H; discriminate H]].
    intros q [= ->]. split; [|reflexivity]. intros _. split.
    + apply (finite_at_least q 3). exact Hlo.
    + apply (finite_at_most q 100). exact Hhi.
Qed.

(** X16. [star.validate] runs both checks whatever the outcome of the first: it
    reports the error on [points] when [points] is not a number within
    3..50, the error on [innerRadius] when [innerRadius] is not a number
    within 0.05..0.95, both when both fail and then [points] first, and
    [null] when neither fails. *)
Theorem star_validate_both_checks (properties : gmap string value) :
  let bad_points :=
    match prop properties "points" with
    | JNum n => num_ltb n (num_of_Z 3) || num_gtb n (num_of_Z 50)
    | _ => true
    end in
  let bad_ratio :=
    match prop properties "innerRadius" with
    | JNum n => num_ltb n (num_of_Q 0.05) || num_gtb n (num_of_Q 0.95)
    | _ => true
    end in
  star_validate properties
  = match bad_points, bad_ratio with
    | false, false => None
    | true, false => Some [points_error]
    | false, true => Some [innerRadius_error]
    | true, true => Some [points_error; innerRadius_error]
    end.
Proof.
  intros bad_points bad_ratio. subst bad_points bad_ratio.
  unfold star_validate.
  destruct (prop properties "points") as [| |b|n|s];
    destruct (prop properties "innerRadius") as [| |b'|n'|s'];
    cbn [not_a_number_type ToNumber orb];
    try destruct (num_ltb n (num_of_Z 3) || num_gtb n (num_of_Z 50));
    try destruct (num_ltb n' (num_of_Q 0.05) || num_gtb n' (num_of_Q 0.95));
    reflexivity.
Qed.

(** X17. [rect.validate] accepts a bag exactly when [cornerRadius] is missing
    (or [undefined]) or is a number not below 0.  [null], which the renderer
    reads as 0, is rejected, and so is every string. *)
Theorem rect_validate_accepts (properties : gmap string value) :
  (rect_validate properties = None
   \/ rect_validate properties = Some [cornerRadius_error])
  /\ (rect_validate properties = None
      <-> prop properties "cornerRadius" = JUndefined
          \/ exists n : number,
               prop properties "cornerRadius" = JNum n
               /\ num_ltb n (num_of_Z 0) = false)
  /\ (properties !! "cornerRadius" = None -> rect_validate properties = None)
  /\ (prop properties "cornerRadius" = JNull ->
      rect_validate properties = Some [cornerRadius_error]).
Proof.
  unfold rect_validate.
  assert (Hmiss : properties !! "cornerRadius" = None ->
                  prop properties "cornerRadius" = JUndefined)
    by (unfold prop; now intros ->).
  destruct (prop properties "cornerRadius") as [| |b|n|s] eqn:Hs; vsimpl.
  - split; [left; reflexivity|]. split; [tauto|]. split; [reflexivity|].
    discriminate.
  - split; [right; reflexivity|].
    split; [split; [discriminate|intros [H|(n' & H & _)]; discriminate H]|].
    split; [intros H; apply Hmiss in H; discriminate H|reflexivity].
  - split; [right; reflexivity|].
    split; [split; [discriminate|intros [H|(n' & H & _)]; discriminate H]|].
    split; [intros H; apply Hmiss in H; discriminate H|discriminate].
  - destruct (num_ltb n (num_of_Z 0)) eqn:Hlo; vsimpl.
    + split; [right; reflexivity|].
      split; [split; [discriminate
                     |intros [H|(n' & [= <-] & H)]; [discriminate H|congruence]]|].
      split; [intros H; apply Hmiss in H; discriminate H|discriminate].
    + split; [left; reflexivity|].
      split; [split; [intros _; right; exists n; auto|reflexivity]|].
      split; [reflexivity|discriminate].
  - split; [right; reflexivity|].
    split; [split; [discriminate|intros [H|(n' & H & _)]; discriminate H]|].
    split; [intros H; apply Hmiss in H; discriminate H|discriminate].
Qed.

(** X18. [line.validate] accepts a bag exactly when [strokeWidth] is present as
    a number not below 0.5; a bag without [strokeWidth], which the renderer
    draws with width 2, is rejected. *)
Theorem line_validate_accepts (properties : gmap string value) :
  (line_validate properties = None
   \/ line_validate properties = Some [strokeWidth_error])
  /\ (line_validate properties = None
      <-> exists n : number,
            prop properties "strokeWidth" = JNum n
            /\ num_ltb n (num_of_Q 0.5) = false)
  /\ (forall q : Qc, prop properties "strokeWidth" = JNum (Fin q) ->
        (line_validate properties = None <-> (0.5 <= this q)%Q))
  /\ (properties !! "strokeWidth" = None -> line_validate properties <> None).
Proof.
  unfold line_validate.
  assert (Hmiss : properties !! "strokeWidth" = None ->
                  prop properties "strokeWidth" = JUndefined)
    by (unfold prop; now intros ->).
  destruct (prop properties "strokeWidth") as [| |b|n|s] eqn:Hs; vsimpl.
  1, 2, 3, 5:
    (split; [right; reflexivity|]);
    (split; [split; [discriminate|intros (n' & H & _); discriminate H]|]);
    (split; [intros q H; discriminate H|]); discriminate.
  destruct (num_ltb n (num_of_Q 0.5)) eqn:Hlo; vsimpl.
  - split; [right; reflexivity|].
    split; [split; [discriminate|intros (n' & [= <-] & H); congruence]|].
    split; [|intros H; apply Hmiss in H; discriminate H].
    intros q [= ->]. split; [discriminate|]. intros H.
    apply (finite_at_least q 0.5) in H. congruence.
  - split; [left; reflexivity|].
    split; [split; [intros _; exists n; auto|reflexivity]|].
    split; [|intros H; apply Hmiss in H; discriminate H].
    intros q [= ->]. split; [|reflexivity]. intros _.
    apply (finite_at_least q 0.5). exact Hlo.
Qed.

(** X19. A validator reads the keys it checks and nothing else, and the defaults
    of every layer type pass its own validator: any bag that agrees with
    [createDefault()] on the checked keys is valid. *)
Theorem defaults_are_valid (t : Layers.LayerTypeDefinition)
    (properties : gmap string value) :
  t ∈ layerTypes ->
  (forall k : string, k ∈ validated_keys (typeId t) ->
     properties !! k = createDefault t !! k) ->
  validate (typeId t) properties = None.
Proof.
  unfold layerTypes. rewrite !elem_of_cons, elem_of_nil.
  intros [->|[->|[->|[->|[->|[]]]]]] H; cbn in H |- *.
  - unfold rect_validate, prop. rewrite (H "cornerRadius") by set_solver.
    reflexivity.
  - reflexivity.
  - unfold line_validate, prop. rewrite (H "strokeWidth") by set_solver.
    reflexivity.
  - unfold polygon_validate, prop. rewrite (H "sides") by set_solver.
    reflexivity.
  - unfold star_validate, prop.
    rewrite (H "points"), (H "innerRadius") by set_solver.
    reflexivity.
Qed.

Lemma defaults_are_valid_witness :
  Layers.starLayerType ∈ layerTypes
  /\ (forall k : string, k ∈ validated_keys (typeId Layers.starLayerType) ->
        createDefault Layers.starLayerType !! k
        = createDefault Layers.starLayerType !! k)
  /\ validate (typeId Layers.starLayerType)
              (createDefault Layers.starLayerType) = None.
Proof.
  assert (H1 : Layers.starLayerType ∈ layerTypes)
    by (unfold layerTypes; set_solver).
  assert (H2 : forall k : string,
             k ∈ validated_keys (typeId Layers.starLayerType) ->
             createDefault Layers.starLayerType !! k
             = createDefault Layers.starLayerType !! k) by reflexivity.
  split; [exact H1|]. split; [exact H2|].
  exact (defaults_are_valid Layers.starLayerType _ H1 H2).
Defined.

(** The validator tests of the repository, replayed. *)
Example rect_validate_test :
  rect_validate (<["cornerRadius" := Layers.num (-5)]>
                   (createDefault Layers.rectLayerType))
  = Some [cornerRadius_error]
  /\ rect_validate (createDefault Layers.rectLayerType) = None.
Proof. split; vm_compute; reflexivity. Qed.

Example line_validate_test :
  line_validate (<["strokeWidth" := Layers.num 0]>
                   (createDefault Layers.lineLayerType))
  = Some [strokeWidth_error]
  /\ line_validate (createDefault Layers.lineLayerType) = None.
Proof. split; vm_compute; reflexivity. Qed.

Example polygon_validate_test :
  polygon_validate (<["sides" := Layers.num 2]>
                      (createDefault Layers.polygonLayerType))
  = Some [sides_error]
  /\ polygon_validate (createDefault Layers.polygonLayerType) = None.
Proof. split; vm_compute; reflexivity. Qed.

Example star_validate_test :
  star_validate (<["points" := Layers.num 2]>
                   (createDefault Layers.starLayerType))
  = Some [points_error]
  /\ star_validate (<["innerRadius" := Layers.num 0]>
                      (createDefault Layers.starLayerType))
     = Some [innerRadius_error]
  /\ star_validate (createDefault Layers.starLayerType) = None.
Proof. repeat split; vm_compute; reflexivity. Qed.

End ValidatorsProofs.

(** ** SVG export *)

Module SvgProofs.

Import Layers(prop, LayerBounds).
Import Tools(Runtime, sample_runtime).
Import Svg.

Lemma prop_insert_ne (properties : gmap string value) (k k' : string)
    (v : value) :
  k <> k' -> prop (<[k := v]> properties) k' = prop properties k'.
Proof. intros H. unfold prop. now rewrite lookup_insert_ne. Qed.

Lemma prop_insert_eq (properties : gmap string value) (k : string)
    (v : value) :
  prop (<[k := v]> properties) k = v.
Proof. unfold prop. now rewrite lookup_insert_eq. Qed.

Lemma string_app_assoc (a b c : string) :
  ((a ++ b) ++ c = a ++ (b ++ c))%string.
Proof.
  induction a as [|ch a IH]; [reflexivity|].
  change (String ch ((a ++ b) ++ c) = String ch (a ++ (b ++ c)))%string.
  now rewrite IH.
Qed.

(** X20. The SVG export of rectangles and ellipses never looks at [fillEnabled]
    or [strokeEnabled]: whatever they are set to, the exported element is
    the same, with its fill and stroke attributes, although the canvas
    renderer paints no fill when [fillEnabled] is false. *)
Theorem svg_ignores_enabled_flags (rt : Runtime)
    (properties : gmap string value) (bounds : LayerBounds)
    (fillEnabled strokeEnabled : value) :
  rect_renderSVG rt (<["fillEnabled" := fillEnabled]>
                       (<["strokeEnabled" := strokeEnabled]> properties))
                 bounds
  = rect_renderSVG rt properties bounds
  /\ ellipse_renderSVG rt (<["fillEnabled" := fillEnabled]>
                             (<["strokeEnabled" := strokeEnabled]> properties))
                       bounds
     = ellipse_renderSVG rt properties bounds
  /\ Layers.rect_render (<["fillEnabled" := JBool false]> ∅) [] Layers.BOUNDS
     <> Layers.rect_render ∅ [] Layers.BOUNDS.
Proof.
  split; [|split].
  - unfold rect_renderSVG. now rewrite !prop_insert_ne by discriminate.
  - unfold ellipse_renderSVG. now rewrite !prop_insert_ne by discriminate.
  - vm_compute. discriminate.
Qed.

(** X21. The SVG export of a line carries no dash attribute: [dashPattern] has
    no effect on the exported element, although the canvas renderer dashes
    the stroke for a pattern such as "5,3". *)
Theorem svg_line_ignores_dashPattern (rt : Runtime)
    (properties : gmap string value) (bounds : LayerBounds)
    (dashPattern : value) :
  line_renderSVG rt (<["dashPattern" := dashPattern]> properties) bounds
  = line_renderSVG rt properties bounds
  /\ Layers.line_render (<["dashPattern" := JStr "5,3"]> ∅) [] Layers.BOUNDS
     <> Layers.line_render ∅ [] Layers.BOUNDS.
Proof.
  split.
  - unfold line_renderSVG. now rewrite !prop_insert_ne by discriminate.
  - vm_compute. discriminate.
Qed.

(** X22. The exported rectangle is the opening text, the fill colour exactly as
    the bag holds it, and the closing text: no character of the colour
    string is escaped, whatever it contains. *)
Theorem svg_fill_verbatim (rt : Runtime) (properties : gmap string value)
    (bounds : LayerBounds) :
  exists pre post : string,
    String.prefix "<rect " pre = true
    /\ (forall fill : string,
          rect_renderSVG rt (<["fillColor" := JStr fill]> properties) bounds
          = (pre ++ fill ++ dq ++ post ++ "/>")%string).
Proof.
  exists ("<rect " ++ attr "x" (Tools.numberToString rt (Layers.x bounds))
          ++ " " ++ attr "y" (Tools.numberToString rt (Layers.y bounds))
          ++ " " ++ attr "width" (Tools.numberToString rt (Layers.width bounds))
          ++ " " ++ attr "height" (Tools.numberToString rt (Layers.height bounds))
          ++ " " ++ attr "rx"
                      (Tools.ToString rt
                         (nullish (prop properties "cornerRadius")
                                  (JNum Layers.zero)))
          ++ " " ++ "fill" ++ "=" ++ dq)%string.
  exists (" " ++ attr "stroke"
                   (Tools.ToString rt
                      (nullish (prop properties "strokeColor")
                               (JStr "#000000")))
          ++ " " ++ attr "stroke-width"
                      (Tools.ToString rt
                         (nullish (prop properties "strokeWidth")
                                  (JNum Layers.zero))))%string.
  split; [reflexivity|]. intros fill.
  unfold rect_renderSVG, attr.
  rewrite prop_insert_eq, !prop_insert_ne by discriminate.
  cbn [nullish Tools.ToString].
  repeat rewrite string_app_assoc. reflexivity.
Qed.

(** The SVG tests of the repository, replayed. *)
Example rect_renderSVG_default :
  rect_renderSVG sample_runtime (Layers.createDefault Layers.rectLayerType)
                 Layers.BOUNDS
  = ("<rect " ++ attr "x" "0" ++ " " ++ attr "y" "0" ++ " "
     ++ attr "width" "200" ++ " " ++ attr "height" "200" ++ " "
     ++ attr "rx" "0" ++ " " ++ attr "fill" "#ffffff" ++ " "
     ++ attr "stroke" "#000000" ++ " " ++ attr "stroke-width" "0"
     ++ "/>")%string.
Proof. vm_compute. reflexivity. Qed.

Example ellipse_renderSVG_default :
  ellipse_renderSVG sample_runtime
                    (Layers.createDefault Layers.ellipseLayerType)
                    Layers.BOUNDS
  = ("<ellipse " ++ attr "cx" "100" ++ " " ++ attr "cy" "100" ++ " "
     ++ attr "rx" "100" ++ " " ++ attr "ry" "100" ++ " "
     ++ attr "fill" "#ffffff" ++ " " ++ attr "stroke" "#000000" ++ " "
     ++ attr "stroke-width" "0" ++ "/>")%string.
Proof. vm_compute. reflexivity. Qed.

Example line_renderSVG_default :
  line_renderSVG sample_runtime (Layers.createDefault Layers.lineLayerType)
                 Layers.BOUNDS
  = ("<line " ++ attr "x1" "0" ++ " " ++ attr "y1" "0" ++ " "
     ++ attr "x2" "200" ++ " " ++ attr "y2" "200" ++ " "
     ++ attr "stroke" "#ffffff" ++ " " ++ attr "stroke-width" "2" ++ " "
     ++ attr "stroke-linecap" "round" ++ "/>")%string.
Proof. vm_compute. reflexivity. Qed.

End SvgProofs.

(** ** Tool handlers: atomicity, writes and acceptance *)

Module ToolsMore.

Import Tools.
Import Layers(prop, num, createDefault, typeId).

#[local] Set Warnings "-clear-no-such-hyp".

(** X23. No handler touches the host before it fails: when a handler resolves
    with the error flag, or rejects, the context is exactly the one it was
    given. *)
Theorem errors_never_mutate (t : Tool) (rt : Runtime)
    (input : gmap string value) (context : McpToolContext) :
  match handler t rt input context with
  | Resolved result context' => isError result = Some true -> context' = context
  | Rejected _ context' => context' = context
  end.
Proof.
  destruct t; cbn [handler].
  - unfold addShape_handler.
    destruct (SHAPE_TYPES_get _); [discriminate|reflexivity|reflexivity].
  - unfold setShapeStyle_handler.
    destruct (layers_get _ _); [|reflexivity].
    destruct (negb _); [reflexivity|].
    destruct (_ =? _)%nat; [reflexivity|discriminate].
  - unfold setPolygon_handler.
    destruct (layers_get _ _); [|reflexivity].
    destruct (negb _); [reflexivity|discriminate].
  - discriminate.
  - discriminate.
Qed.

(** X24. A handler that succeeds makes exactly one write followed by exactly one
    change notification: [add] and "layer-added" for add_shape and add_line,
    [updateProperties] on the given layer id and "layer-updated" for
    set_shape_style and set_polygon; list_shapes makes no call at all. *)
Theorem success_is_one_write_one_emit (t : Tool) (rt : Runtime)
    (input : gmap string value) (context context' : McpToolContext)
    (result : McpToolResult) :
  handler t rt input context = Resolved result context' ->
  isError result = None ->
  match t with
  | add_shape | add_line =>
      exists layer : DesignLayer,
        calls context'
        = calls context ++ [CallAdd layer; CallEmitChange "layer-added"]
  | set_shape_style | set_polygon =>
      exists updates : gmap string value,
        calls context'
        = calls context
          ++ [CallUpdateProperties (prop input "layerId") updates;
              CallEmitChange "layer-updated"]
  | list_shapes => context' = context
  end.
Proof.
  destruct t; cbn [handler].
  - unfold addShape_handler.
    destruct (SHAPE_TYPES_get _);
      [|discriminate|intros [= <- <-] H; discriminate H].
    intros [= <- <-] _. eexists. simpl. now rewrite <- app_assoc.
  - unfold setShapeStyle_handler.
    destruct (layers_get _ _); [|intros [= <- <-] H; discriminate H].
    destruct (negb _); [intros [= <- <-] H; discriminate H|].
    destruct (_ =? _)%nat; [intros [= <- <-] H; discriminate H|].
    intros [= <- <-] _. eexists. simpl. now rewrite <- app_assoc.
  - unfold setPolygon_handler.
    destruct (layers_get _ _); [|intros [= <- <-] H; discriminate H].
    destruct (negb _); [intros [= <- <-] H; discriminate H|].
    intros [= <- <-] _. eexists. simpl. now rewrite <- app_assoc.
  - unfold addLine_handler. intros [= <- <-] _. eexists. simpl.
    now rewrite <- app_assoc.
  - unfold listShapes_handler. now intros [= <- <-] _.
Qed.

Lemma success_is_one_write_one_emit_witness :
  handler add_line sample_runtime leftward_line_input empty_context
  = Resolved
      (textResult
         "Added line layer 'layer-m2x9k4ap-k3f9z1' from (10,0) to (0,0).")
      (outcome_context
         (handler add_line sample_runtime leftward_line_input empty_context))
  /\ isError
       (textResult
          "Added line layer 'layer-m2x9k4ap-k3f9z1' from (10,0) to (0,0).")
     = None
  /\ exists layer : DesignLayer,
       calls (outcome_context
                (handler add_line sample_runtime leftward_line_input
                         empty_context))
       = calls empty_context ++ [CallAdd layer; CallEmitChange "layer-added"].
Proof.
  assert (H1 : handler add_line sample_runtime leftward_line_input empty_context
               = Resolved
                   (textResult
                      "Added line layer 'layer-m2x9k4ap-k3f9z1' from (10,0) to (0,0).")
                   (outcome_context
                      (handler add_line sample_runtime leftward_line_input
                               empty_context)))
    by (vm_compute; reflexivity).
  assert (H2 : isError
                 (textResult
                    "Added line layer 'layer-m2x9k4ap-k3f9z1' from (10,0) to (0,0).")
               = None) by reflexivity.
  split; [exact H1|]. split; [exact H2|].
  exact (success_is_one_write_one_emit add_line sample_runtime
           leftward_line_input empty_context _ _ H1 H2).
Defined.

(** *** set_shape_style and set_polygon *)

Lemma is_defined_false (v : value) : is_defined v = false <-> v = JUndefined.
Proof. destruct v; split; intros H; try discriminate H; reflexivity. Qed.

Lemma style_updates_lookup (input : gmap string value) (k : string) :
  fold_left (fun updates k' => merge_key input k' updates) style_keys ∅ !! k
  = if bool_decide (k ∈ style_keys) && is_defined (prop input k)
    then Some (prop input k) else None.
Proof.
  unfold style_keys. cbn [fold_left].
  rewrite !ToolsProofs.merge_key_lookup, lookup_empty.
  repeat (case_decide; [subst k; cbn; destruct (is_defined _); reflexivity|]).
  rewrite bool_decide_eq_false_2; [reflexivity|].
  rewrite !elem_of_cons, elem_of_nil. intuition congruence.
Qed.

Lemma style_updates_empty_iff (input : gmap string value) :
  (List.length
     (map_to_list
        (fold_left (fun updates k => merge_key input k updates) style_keys ∅))
   =? 0)%nat = true
  <-> forall k : string, k ∈ style_keys -> prop input k = JUndefined.
Proof.
  rewrite Nat.eqb_eq, length_zero_iff_nil, map_to_list_empty_iff, map_empty.
  split.
  - intros H k Hk. specialize (H k). rewrite style_updates_lookup in H.
    rewrite bool_decide_eq_true_2 in H by exact Hk. cbn [andb] in H.
    apply is_defined_false. destruct (is_defined _); [discriminate H|reflexivity].
  - intros H k. rewrite style_updates_lookup.
    destruct (bool_decide (k ∈ style_keys)) eqn:Hk; [|reflexivity].
    apply bool_decide_eq_true_1 in Hk. rewrite (H k Hk). reflexivity.
Qed.

(** Among the five style keys, if not all are undefined then one is
    defined. *)
Lemma not_forall_exists_not_style (input : gmap string value) :
  ~ (forall k : string, k ∈ style_keys -> prop input k = JUndefined) ->
  exists k : string, k ∈ style_keys /\ is_defined (prop input k) = true.
Proof.
  intros H.
  destruct (existsb (fun k => is_defined (prop input k)) style_keys) eqn:He.
  - apply existsb_exists in He as (k & Hk & Hd). exists k.
    split; [now apply list_elem_of_In|exact Hd].
  - exfalso. apply H. intros k Hk. apply is_defined_false.
    destruct (is_defined (prop input k)) eqn:Hd; [|reflexivity].
    assert (existsb (fun k => is_defined (prop input k)) style_keys = true)
      by (apply existsb_exists; exists k; split;
          [now apply list_elem_of_In|exact Hd]).
    congruence.
Qed.

#[local] Instance style_all_undefined_dec (input : gmap string value) :
  Decision (forall k : string, k ∈ style_keys -> prop input k = JUndefined).
Proof.
  destruct (forallb (fun k => negb (is_defined (prop input k))) style_keys)
    eqn:Hf.
  - left. intros k Hk. apply is_defined_false.
    rewrite forallb_forall in Hf. apply list_elem_of_In in Hk.
    specialize (Hf k Hk). now apply negb_true_iff in Hf.
  - right. intros H.
    assert (forallb (fun k => negb (is_defined (prop input k))) style_keys
            = true).
    { apply forallb_forall. intros k Hk. apply list_elem_of_In in Hk.
      rewrite (H k Hk). reflexivity. }
    congruence.
Qed.

(** X25. [set_shape_style] succeeds exactly when the layer id resolves to a layer
    whose type starts with "shapes:" and the input defines at least one of
    the five style keys.  It then passes to [updateProperties] exactly the
    style keys the input defines, with the values of the input, and nothing
    else: the layer id, unknown keys and undefined values never reach the
    host. *)
Theorem setShapeStyle_accepts (rt : Runtime) (input : gmap string value)
    (context : McpToolContext) :
  let layerId := prop input "layerId" in
  ((exists (message : string) (context' : McpToolContext),
       setShapeStyle_handler rt input context
       = Resolved (textResult message) context')
   <-> ((exists layer : DesignLayer,
           layers_get context layerId = Some layer
           /\ String.prefix "shapes:" (type layer) = true)
        /\ exists k : string,
             k ∈ style_keys /\ is_defined (prop input k) = true))
  /\ (forall (message : string) (context' : McpToolContext),
        setShapeStyle_handler rt input context
        = Resolved (textResult message) context' ->
        exists updates : gmap string value,
          calls context'
          = calls context ++ [CallUpdateProperties layerId updates;
                              CallEmitChange "layer-updated"]
          /\ forall k : string,
               updates !! k
               = if bool_decide (k ∈ style_keys) && is_defined (prop input k)
                 then Some (prop input k) else None).
Proof.
  intros layerId. unfold setShapeStyle_handler. fold layerId.
  destruct (layers_get context layerId) as [layer|].
  2: { split; [split|].
       - intros (m & c & H). discriminate H.
       - intros [(l & H & _) _]. discriminate H.
       - intros m c H. discriminate H. }
  destruct (String.prefix "shapes:" (type layer)) eqn:Hpre; cbn [negb].
  2: { split; [split|].
       - intros (m & c & H). discriminate H.
       - intros [(l & [= <-] & H) _]. congruence.
       - intros m c H. discriminate H. }
  destruct (_ =? _)%nat eqn:Hempty.
  - pose proof (proj1 (style_updates_empty_iff input) Hempty) as Hall.
    split; [split|].
    + intros (m & c & H). discriminate H.
    + intros [_ (k & Hk & Hdef)]. rewrite (Hall k Hk) in Hdef.
      discriminate Hdef.
    + intros m c H. discriminate H.
  - split; [split|].
    + intros _. split; [exists layer; auto|].
      destruct (decide (forall k, k ∈ style_keys -> prop input k = JUndefined))
        as [Hall|Hsome].
      * pose proof (proj2 (style_updates_empty_iff input) Hall). congruence.
      * apply not_forall_exists_not_style in Hsome. exact Hsome.
    + intros _. eexists. eexists. reflexivity.
    + intros m c [= <- <-]. eexists. split.
      * simpl. rewrite <- app_assoc. reflexivity.
      * apply style_updates_lookup.
Qed.

(** X26. [set_polygon] succeeds exactly when the layer id resolves to a layer
    of type "shapes:polygon", whatever else the input holds.  It passes to
    [updateProperties] the keys [sides] and [rotation] that the input
    defines, as they are and unvalidated, and no other key. *)
Theorem setPolygon_accepts (rt : Runtime) (input : gmap string value)
    (context : McpToolContext) :
  let layerId := prop input "layerId" in
  ((exists (message : string) (context' : McpToolContext),
       setPolygon_handler rt input context
       = Resolved (textResult message) context')
   <-> exists layer : DesignLayer,
         layers_get context layerId = Some layer
         /\ type layer = "shapes:polygon"%string)
  /\ (forall (message : string) (context' : McpToolContext),
        setPolygon_handler rt input context
        = Resolved (textResult message) context' ->
        exists updates : gmap string value,
          calls context'
          = calls context ++ [CallUpdateProperties layerId updates;
                              CallEmitChange "layer-updated"]
          /\ forall k : string,
               updates !! k
               = if bool_decide (k ∈ ["sides"; "rotation"]%string)
                    && is_defined (prop input k)
                 then Some (prop input k) else None).
Proof.
  intros layerId. unfold setPolygon_handler. fold layerId.
  destruct (layers_get context layerId) as [layer|].
  2: { split; [split|].
       - intros (m & c & H). discriminate H.
       - intros (l & H & _). discriminate H.
       - intros m c H. discriminate H. }
  destruct (String.eqb (type layer) "shapes:polygon") eqn:Hty; cbn [negb].
  - apply String.eqb_eq in Hty. split; [split|].
    + intros _. exists layer. auto.
    + intros _. eexists. eexists. reflexivity.
    + intros m c [= <- <-]. eexists. split.
      * simpl. rewrite <- app_assoc. reflexivity.
      * intros k. rewrite !ToolsProofs.merge_key_lookup, lookup_empty.
        repeat (case_decide;
                [subst k; cbn; destruct (is_defined _); reflexivity|]).
        rewrite bool_decide_eq_false_2; [reflexivity|].
        rewrite !elem_of_cons, elem_of_nil. intuition congruence.
  - apply String.eqb_neq in Hty. split; [split|].
    + intros (m & c & H). discriminate H.
    + intros (l & [= <-] & H). contradiction.
    + intros m c H. discriminate H.
Qed.

(** *** add_shape and add_line: the created bag *)

(** X27. The bag [add_shape] creates keeps every key of the defaults, and the
    only keys it can add are the copied keys the input defines and
    [strokeEnabled] when the input defines [strokeWidth]: a key such as
    [sides] given for a rectangle is stored although the rectangle schema
    does not declare it. *)
Theorem addShape_bag_keys (rt : Runtime) (input : gmap string value)
    (context : McpToolContext) (shapeDef : Layers.LayerTypeDefinition) :
  assoc (ToString rt (prop input "shape")) SHAPE_TYPES = Some shapeDef ->
  exists (layer : DesignLayer) (message : string),
    addShape_handler rt input context
    = Resolved (textResult message)
               (emitChange (layers_add context layer) "layer-added")
    /\ forall k : string,
         k ∈ dom (properties layer)
         <-> (k ∈ dom (createDefault shapeDef)
              \/ (k ∈ merged_keys /\ is_defined (prop input k) = true)
              \/ (k = "strokeEnabled"%string
                  /\ is_defined (prop input "strokeWidth") = true)).
Proof.
  intros Hown. apply ToolsProofs.SHAPE_TYPES_get_own in Hown.
  unfold addShape_handler. rewrite Hown.
  eexists. eexists. split; [reflexivity|]. cbn [properties].
  intros k. rewrite !elem_of_dom.
  destruct (decide (k = "strokeEnabled"%string)) as [->|Hne].
  - rewrite ToolsProofs.addShape_merge_strokeEnabled.
    destruct (is_defined (prop input "strokeWidth")) eqn:Hsw.
    + split; [intros _; right; right; auto|intros _; eauto].
    + split; [tauto|].
      intros [H|[[Hk _]|[_ H]]]; [exact H| |discriminate H].
      unfold merged_keys in Hk. rewrite !elem_of_cons, elem_of_nil in Hk.
      intuition discriminate.
  - destruct (decide (k ∈ merged_keys)) as [Hk|Hk].
    + destruct (is_defined (prop input k)) eqn:Hdef.
      * rewrite ToolsProofs.addShape_merge_supplied by assumption.
        split; [intros _; right; left; auto|intros _; eauto].
      * rewrite ToolsProofs.addShape_merge_frame
          by (try apply is_defined_false; assumption).
        split; [tauto|]. intros [H|[[_ H]|[H _]]];
          [exact H|discriminate H|contradiction].
    + rewrite ToolsProofs.addShape_merge_unrelated by assumption.
      split; [tauto|]. intros [H|[[H _]|[H _]]]; [exact H|contradiction..].
Qed.

Lemma addShape_bag_keys_witness :
  assoc (ToString sample_runtime (prop rect_stroke_input "shape")) SHAPE_TYPES
  = Some Layers.rectLayerType
  /\ exists (layer : DesignLayer) (message : string),
       addShape_handler sample_runtime rect_stroke_input empty_context
       = Resolved (textResult message)
                  (emitChange (layers_add empty_context layer) "layer-added")
       /\ forall k : string,
            k ∈ dom (properties layer)
            <-> (k ∈ dom (createDefault Layers.rectLayerType)
                 \/ (k ∈ merged_keys
                     /\ is_defined (prop rect_stroke_input k) = true)
                 \/ (k = "strokeEnabled"%string
                     /\ is_defined (prop rect_stroke_input "strokeWidth")
                        = true)).
Proof.
  assert (H : assoc (ToString sample_runtime (prop rect_stroke_input "shape"))
                    SHAPE_TYPES = Some Layers.rectLayerType) by reflexivity.
  split; [exact H|].
  exact (addShape_bag_keys sample_runtime rect_stroke_input empty_context
           Layers.rectLayerType H).
Defined.

Lemma addLine_merge_lookup (input : gmap string value) (k : string) :
  merge_key input "strokeWidth"
    (merge_key input "strokeColor" (createDefault Layers.lineLayerType)) !! k
  = if bool_decide (k ∈ ["strokeColor"; "strokeWidth"]%string)
       && is_defined (prop input k)
    then Some (prop input k)
    else createDefault Layers.lineLayerType !! k.
Proof.
  rewrite !ToolsProofs.merge_key_lookup.
  repeat (case_decide;
          [subst k; cbn; destruct (is_defined _); reflexivity|]).
  rewrite bool_decide_eq_false_2; [reflexivity|].
  rewrite !elem_of_cons, elem_of_nil. intuition congruence.
Qed.

(** X28. [add_line] never fails, whatever the input.  The bag of the created
    layer has exactly the keys of the line schema; [strokeColor] and
    [strokeWidth] take the values of the input when it defines them, and
    every other key, [lineCap] and [dashPattern] among them, keeps its
    default whatever the input holds for it. *)
Theorem addLine_bag (rt : Runtime) (input : gmap string value)
    (context : McpToolContext) :
  exists (layer : DesignLayer) (message : string),
    addLine_handler rt input context
    = Resolved (textResult message)
               (emitChange (layers_add context layer) "layer-added")
    /\ dom (properties layer)
       = list_to_set (Layers.key <$> Layers.properties Layers.lineLayerType)
    /\ forall k : string,
         properties layer !! k
         = if bool_decide (k ∈ ["strokeColor"; "strokeWidth"]%string)
              && is_defined (prop input k)
           then Some (prop input k)
           else createDefault Layers.lineLayerType !! k.
Proof.
  unfold addLine_handler. eexists. eexists. split; [reflexivity|].
  cbn [properties].
  pose proof (addLine_merge_lookup input) as Hlook.
  split; [|exact Hlook].
  apply set_eq. intros k. rewrite elem_of_dom, Hlook.
  destruct (bool_decide (k ∈ ["strokeColor"; "strokeWidth"]%string)) eqn:Hk.
  - apply bool_decide_eq_true_1 in Hk.
    rewrite !elem_of_cons, elem_of_nil in Hk.
    destruct Hk as [->|[->|[]]]; cbn [andb];
      (split;
         [intros _; apply elem_of_list_to_set; cbn; set_solver
         |intros _; destruct (is_defined _);
          [eauto|eexists; vm_compute; reflexivity]]).
  - cbn [andb]. rewrite <- elem_of_dom.
    replace (dom (createDefault Layers.lineLayerType))
      with (list_to_set (C := gset string)
              (Layers.key <$> Layers.properties Layers.lineLayerType)).
    + reflexivity.
    + unfold Layers.lineLayerType, createDefault, Layers.defaults_of.
      cbn [Layers.properties].
      rewrite LayersProofs.defaults_fold_dom, dom_empty_L. set_solver.
Qed.

(** *** add_line and the line renderer together *)



(** *** The layers the plugin creates *)

Lemma SHAPE_TYPES_registered (k : string) (d : Layers.LayerTypeDefinition) :
  SHAPE_TYPES_get k = OwnShape d -> d ∈ Layers.layerTypes.
Proof.
  rewrite ToolsProofs.SHAPE_TYPES_get_own. unfold SHAPE_TYPES. cbn [assoc].
  repeat (destruct (String.eqb _ k);
          [intros [= <-]; unfold Layers.layerTypes; set_solver|]).
  discriminate.
Qed.

Lemma layerTypes_prefixed (d : Layers.LayerTypeDefinition) :
  d ∈ Layers.layerTypes -> String.prefix "shapes:" (typeId d) = true.
Proof.
  unfold Layers.layerTypes. rewrite !elem_of_cons, elem_of_nil.
  intros [->|[->|[->|[->|[->|[]]]]]]; reflexivity.
Qed.

(** X30. The five layer types have pairwise different type ids, and every layer
    a tool of the plugin adds carries the id of one of them; such an id
    starts with "shapes:", so the type check of set_shape_style lets every
    layer through that the plugin itself has created. *)
Theorem created_layers_are_shape_layers (t : Tool) (rt : Runtime)
    (input : gmap string value) (st : list DesignLayer) (layer : DesignLayer) :
  layer ∈ added_layers
            (calls (outcome_context
                      (handler t rt input {| stack := st; calls := [] |}))) ->
  NoDup (typeId <$> Layers.layerTypes)
  /\ (exists d : Layers.LayerTypeDefinition,
        d ∈ Layers.layerTypes /\ type layer = typeId d)
  /\ String.prefix "shapes:" (type layer) = true.
Proof.
  intros Hl.
  split; [apply (bool_decide_unpack _); vm_compute; reflexivity|].
  assert (Hd : exists d : Layers.LayerTypeDefinition,
             d ∈ Layers.layerTypes /\ type layer = typeId d).
  { destruct t; cbn [handler] in Hl.
    - unfold addShape_handler in Hl.
      destruct (SHAPE_TYPES_get _) as [d| |] eqn:Hget; simpl in Hl;
        [|by apply elem_of_nil in Hl..].
      apply list_elem_of_singleton in Hl. subst layer.
      exists d. split; [now apply SHAPE_TYPES_registered in Hget|reflexivity].
    - unfold setShapeStyle_handler in Hl.
      destruct (layers_get _ _); simpl in Hl; [|by apply elem_of_nil in Hl].
      destruct (negb _); simpl in Hl; [by apply elem_of_nil in Hl|].
      destruct (_ =? _)%nat; simpl in Hl; by apply elem_of_nil in Hl.
    - unfold setPolygon_handler in Hl.
      destruct (layers_get _ _); simpl in Hl; [|by apply elem_of_nil in Hl].
      destruct (negb _); simpl in Hl; by apply elem_of_nil in Hl.
    - unfold addLine_handler in Hl. simpl in Hl.
      apply list_elem_of_singleton in Hl. subst layer.
      exists Layers.lineLayerType.
      split; [unfold Layers.layerTypes; set_solver|reflexivity].
    - simpl in Hl. by apply elem_of_nil in Hl. }
  split; [exact Hd|].
  destruct Hd as (d & Hin & ->). now apply layerTypes_prefixed.
Qed.

Lemma created_layers_are_shape_layers_witness :
  with_properties
    {| id := "layer-m2x9k4ap-k3f9z1"; type := "shapes:star"; name := "Star";
       visible := true; locked := false; opacity := num_of_Z 1;
       blendMode := "normal";
       transform :=
         {| x := num 100; y := num 100; width := num 200; height := num 200;
            rotation := num 0; scaleX := num 1; scaleY := num 1;
            anchorX := num 0.5; anchorY := num 0.5 |};
       properties := ∅ |}
    (addShape_merge star_8_input (createDefault Layers.starLayerType))
  ∈ added_layers
      (calls (outcome_context
                (handler add_shape sample_runtime star_8_input
                         {| stack := []; calls := [] |})))
  /\ String.prefix "shapes:" "shapes:star" = true.
Proof.
  set (layer := with_properties _ _).
  assert (H : layer ∈ added_layers
                        (calls (outcome_context
                                  (handler add_shape sample_runtime star_8_input
                                           {| stack := []; calls := [] |})))).
  { cbn. apply list_elem_of_singleton. reflexivity. }
  split; [exact H|].
  exact (proj2 (proj2 (created_layers_are_shape_layers add_shape sample_runtime
                         star_8_input [] layer H))).
Defined.

End ToolsMore.
